(** * RuBisCO kinetics and Henry's-law solubility

    A shallow embedding of [jupyter_notebooks/henrys_law.py] and
    [jupyter_notebooks/rubiscos.py].

    Numbers.  The Python code computes on floats; here a number is a real
    ([R]) and [np.exp] is the real exponential, so rounding is abstracted
    away and every statement below is one of exact arithmetic.

    Failure.  Python's [/] on built-in floats raises [ZeroDivisionError]
    when the divisor is zero.  Every such [/] whose divisor is not a nonzero
    literal is the partial operation [div] below, and a function that
    divides built-in floats returns an [option]: [None] is the raised error.

    NumPy values.  [np.exp] returns a [numpy.float64], and so does every
    value computed from one.  Dividing such a value never raises: a zero
    divisor yields an infinity or a nan (and a warning), which later
    operations propagate by the IEEE 754 rules.  [Float64] below is that
    arithmetic without rounding: finite reals, the negative zero, the two
    infinities and nan ([Fin 0] is the positive zero, and a zero that
    enters as an argument is taken to be positive).  A [numpy.float64]
    computed without a division is finite and is kept as the real it
    denotes until it meets a division.  [RuBisCOParams] is embedded once
    for each kind of operand: [RuBisCOParams] for the built-in floats of
    the literal constants, [RuBisCOParamsNp] for the [numpy.float64] values
    [concrete_temp] constructs it from.

    Optional arguments.  [temp=None] is an [option R]; the idiom
    [temp or self.ref_temp] is [py_or], which falls back on [None] and on
    any zero. *)

From Stdlib Require Import Reals Lra String Bool.

Open Scope R_scope.

(** ** The error monad of a computation that may divide by zero *)

Definition bind {A B : Type} (m : option A) (k : A -> option B) : option B :=
  match m with
  | Some a => k a
  | None => None
  end.

Notation "x <- m ;; k" := (bind m (fun x => k))
  (at level 61, m at next level, right associativity).

(** [x / y] of Python floats. *)
Definition div (x y : R) : option R :=
  if Req_dec_T y 0 then None else Some (x / y).

(** [temp or default]: [None] and [0] are falsy. *)
Definition py_or (temp : option R) (default : R) : R :=
  match temp with
  | None => default
  | Some t => if Req_dec_T t 0 then default else t
  end.

(** A keyword argument with a default value, [None] when it is omitted. *)
Definition kwarg {A : Type} (default : A) (supplied : option A) : A :=
  match supplied with
  | None => default
  | Some a => a
  end.

(** ** henrys_law.py *)

Module HenrysLaw.

Record t : Type := mk {
  name : option string;
  _ref_h_cp : R;
  _t_dep : R;
  ref_temp : R
}.

(** [HenrysLaw.__init__(self, h_cp, t_dep, ref_temp, name=None)] *)
Definition init (h_cp t_dep ref_temp : R) (name : option string) : t :=
  {| name := name; _ref_h_cp := h_cp; _t_dep := t_dep; ref_temp := ref_temp |}.

(** [HenrysLaw.h_cp(self, temp=None)] *)
Definition h_cp (self : t) (temp : option R) : option R :=
  let _t := py_or temp (ref_temp self) in
  a <- div 1.0 _t ;;
  b <- div 1.0 (ref_temp self) ;;
  let temp_term := a - b in
  let exp_term := exp (_t_dep self * temp_term) in
  Some (_ref_h_cp self * exp_term).

(** [HenrysLaw.molar_conc(self, p, temp=None)] *)
Definition molar_conc (self : t) (p : R) (temp : option R) : option R :=
  _h_cp <- h_cp self temp ;;
  let conc := p * _h_cp in
  Some (1e-3 * conc).

End HenrysLaw.

(** Both source files bind [_REF_T] to this value. *)
Definition _REF_T : R := 298.15.
Definition O2_SOL : HenrysLaw.t :=
  HenrysLaw.init 1.2e-5 1700 _REF_T (Some "O2"%string).
Definition CO2_SOL : HenrysLaw.t :=
  HenrysLaw.init 3.3e-4 2400 _REF_T (Some "CO2"%string).

(** ** rubiscos.py *)

Module RuBisCOParams.

Record t : Type := mk {
  kcat_C : R;
  K_C : R;
  K_O : R;
  S : R;
  kcat_O : R;
  name : option string;
  mw : R
}.

(** [RuBisCOParams.__init__(self, kcat_C, K_C, K_O, S, name=None, mw=65e3)] *)
Definition init (kcat_C K_C K_O S : R) (name : option string) (mw : option R)
  : option t :=
  kcat_O <- div (kcat_C * K_O) (K_C * S) ;;
  Some {| kcat_C := kcat_C; K_C := K_C; K_O := K_O; S := S;
          kcat_O := kcat_O; name := name; mw := kwarg 65e3 mw |}.

(** [RuBisCOParams.vs(self, co2, o2)] *)
Definition vs (self : t) (co2 o2 : R) : option (R * R) :=
  a <- div (K_C self) co2 ;;
  b <- div (K_C self * o2) (K_O self * co2) ;;
  vc <- div (kcat_C self) (1.0 + a + b) ;;
  c <- div (K_O self) o2 ;;
  d <- div (K_O self * co2) (K_C self * o2) ;;
  vo <- div (kcat_O self) (1.0 + c + d) ;;
  Some (vc, vo).

(** [RuBisCOParams.net_vc(self, co2, o2)] *)
Definition net_vc (self : t) (co2 o2 : R) : option R :=
  v <- vs self co2 o2 ;;
  let (vc, vo) := v in
  Some (vc - vo / 2).

End RuBisCOParams.

(* Occhilanni 2015 *)
Definition PCC7942 : option RuBisCOParams.t :=
  RuBisCOParams.init 14.4 172 585 43 (Some "PCC7942"%string) None.
(* Savir 2010 *)
Definition RUBRUM : option RuBisCOParams.t :=
  RuBisCOParams.init 7.3 80 406 12.3 (Some "Rubrum"%string) (Some 52e3).
Definition SPINACH : option RuBisCOParams.t :=
  RuBisCOParams.init 3.7 14 480 80 (Some "Spinach"%string) None.
Definition MAIZE : option RuBisCOParams.t :=
  RuBisCOParams.init 4.4 34 810 78 (Some "Maize"%string) None.
Definition TOBACCO : option RuBisCOParams.t :=
  RuBisCOParams.init 3.4 10.7 295 82 (Some "Tobacco"%string) None.

(** Universal gas constant kJ/mol/K *)
Definition _R : R := 8.314e-3.

Module ArrheniusParam.

Record t : Type := mk {
  ref_value : R;
  ref_temp : R;
  e_act : R
}.

(** [ArrheniusParam.__init__(self, ref_value, ref_temp, e_act)] *)
Definition init (ref_value ref_temp e_act : R) : t :=
  {| ref_value := ref_value; ref_temp := ref_temp; e_act := e_act |}.

(** [ArrheniusParam.value(self, temp=None)] *)
Definition value (self : t) (temp : option R) : option R :=
  let my_temp := py_or temp (ref_temp self) in
  a <- div (- e_act self) (_R * my_temp) ;;
  b <- div (a * (ref_temp self - my_temp)) (ref_temp self) ;;
  let exp_term := exp b in
  Some (ref_value self * exp_term).

End ArrheniusParam.

(** ** numpy.float64 arithmetic, without rounding *)

Module Float64.

Inductive t : Type :=
  | Fin (r : R)
  | NegZero
  | Inf (negative : bool)
  | NaN.

(** The real number a finite value denotes. *)
Definition real (x : t) : option R :=
  match x with
  | Fin r => Some r
  | NegZero => Some 0
  | Inf _ | NaN => None
  end.

Definition zero (negative : bool) : t :=
  if negative then NegZero else Fin 0.

Definition is_zero (x : t) : bool :=
  match x with
  | Fin r => if Req_dec_T r 0 then true else false
  | NegZero => true
  | Inf _ | NaN => false
  end.

(** The sign bit. *)
Definition negative (x : t) : bool :=
  match x with
  | Fin r => if Rlt_dec r 0 then true else false
  | NegZero => true
  | Inf s => s
  | NaN => false
  end.

Definition finite_value (x : t) : R :=
  match x with
  | Fin r => r
  | NegZero | Inf _ | NaN => 0
  end.

(** [x * y] *)
Definition mul (x y : t) : t :=
  match x, y with
  | NaN, _ | _, NaN => NaN
  | Inf s, _ => if is_zero y then NaN else Inf (xorb s (negative y))
  | _, Inf s => if is_zero x then NaN else Inf (xorb (negative x) s)
  | _, _ =>
      if is_zero x || is_zero y
      then zero (xorb (negative x) (negative y))
      else Fin (finite_value x * finite_value y)
  end.

(** [x / y]: a zero divisor gives an infinity, or nan for [0 / 0]. *)
Definition div (x y : t) : t :=
  match x, y with
  | NaN, _ | _, NaN => NaN
  | Inf _, Inf _ => NaN
  | Inf s, _ => Inf (xorb s (negative y))
  | _, Inf s => zero (xorb (negative x) s)
  | _, _ =>
      if is_zero y
      then if is_zero x then NaN else Inf (xorb (negative x) (negative y))
      else if is_zero x
           then zero (xorb (negative x) (negative y))
           else Fin (finite_value x / finite_value y)
  end.

(** [x + y]: an exact cancellation gives the positive zero. *)
Definition add (x y : t) : t :=
  match x, y with
  | NaN, _ | _, NaN => NaN
  | Inf s, Inf s' => if Bool.eqb s s' then Inf s else NaN
  | Inf s, _ | _, Inf s => Inf s
  | NegZero, NegZero => NegZero
  | NegZero, Fin r | Fin r, NegZero => Fin r
  | Fin a, Fin b => Fin (a + b)
  end.

Definition opp (x : t) : t :=
  match x with
  | Fin r => if Req_dec_T r 0 then NegZero else Fin (- r)
  | NegZero => Fin 0
  | Inf s => Inf (negb s)
  | NaN => NaN
  end.

(** [x - y] *)
Definition sub (x y : t) : t := add x (opp y).

End Float64.

(** [RuBisCOParams] on [numpy.float64] operands, as [concrete_temp] builds
    and uses it: the same constructor and methods, with NumPy's division. *)
Module RuBisCOParamsNp.

Record t : Type := mk {
  kcat_C : Float64.t;
  K_C : Float64.t;
  K_O : Float64.t;
  S : Float64.t;
  kcat_O : Float64.t;
  name : option string;
  mw : R
}.

(** [RuBisCOParams.__init__(self, kcat_C, K_C, K_O, S, name=None, mw=65e3)] *)
Definition init (kcat_C K_C K_O S : Float64.t) (name : option string)
    (mw : option R) : t :=
  {| kcat_C := kcat_C; K_C := K_C; K_O := K_O; S := S;
     kcat_O := Float64.div (Float64.mul kcat_C K_O) (Float64.mul K_C S);
     name := name; mw := kwarg 65e3 mw |}.

(** [RuBisCOParams.vs(self, co2, o2)] *)
Definition vs (self : t) (co2 o2 : Float64.t) : Float64.t * Float64.t :=
  let vc :=
    Float64.div (kcat_C self)
      (Float64.add
         (Float64.add (Float64.Fin 1.0) (Float64.div (K_C self) co2))
         (Float64.div (Float64.mul (K_C self) o2)
                      (Float64.mul (K_O self) co2))) in
  let vo :=
    Float64.div (kcat_O self)
      (Float64.add
         (Float64.add (Float64.Fin 1.0) (Float64.div (K_O self) o2))
         (Float64.div (Float64.mul (K_O self) co2)
                      (Float64.mul (K_C self) o2))) in
  (vc, vo).

(** [RuBisCOParams.net_vc(self, co2, o2)] *)
Definition net_vc (self : t) (co2 o2 : Float64.t) : Float64.t :=
  let (vc, vo) := vs self co2 o2 in
  Float64.sub vc (Float64.div vo (Float64.Fin 2)).

End RuBisCOParamsNp.

Module ArrheniusRubisco.

Record t : Type := mk {
  kcat_C : ArrheniusParam.t;
  K_C : ArrheniusParam.t;
  K_O : ArrheniusParam.t;
  S : ArrheniusParam.t;
  ref_temp : R;
  name : option string;
  mw : R
}.

(** [ArrheniusRubisco.__init__(self, kcat_C, K_C, K_O, S, ref_temp=None,
    name=None, mw=65e3)] *)
Definition init (kcat_C K_C K_O S : ArrheniusParam.t) (ref_temp : option R)
    (name : option string) (mw : option R) : t :=
  {| kcat_C := kcat_C; K_C := K_C; K_O := K_O; S := S;
     ref_temp := py_or ref_temp 298.15;
     name := name; mw := kwarg 65e3 mw |}.

(** [ArrheniusRubisco.concrete_temp(self, temp)].  The four values and the
    two concentrations are finite [numpy.float64] values; [sol_ratio] is
    NumPy's quotient, and the constructor runs on NumPy operands: it cannot
    raise. *)
Definition concrete_temp (self : t) (temp : option R)
    : option RuBisCOParamsNp.t :=
  kcat_C <- ArrheniusParam.value (kcat_C self) temp ;;
  K_C <- ArrheniusParam.value (K_C self) temp ;;
  K_O <- ArrheniusParam.value (K_O self) temp ;;
  S <- ArrheniusParam.value (S self) temp ;;
  c <- HenrysLaw.molar_conc CO2_SOL K_C temp ;;
  let K_C_umolar := c * 1e6 in
  o <- HenrysLaw.molar_conc O2_SOL K_O temp ;;
  let K_O_umolar := o * 1e6 in
  h_o <- HenrysLaw.h_cp O2_SOL temp ;;
  h_c <- HenrysLaw.h_cp CO2_SOL temp ;;
  let sol_ratio := Float64.div (Float64.Fin h_o) (Float64.Fin h_c) in
  let S_sol := Float64.mul (Float64.Fin S) sol_ratio in
  Some (RuBisCOParamsNp.init (Float64.Fin kcat_C) (Float64.Fin K_C_umolar)
          (Float64.Fin K_O_umolar) S_sol (name self) (Some (mw self))).

(** [ArrheniusRubisco.vs(self, co2, o2, temp=None)]; the concentrations are
    the caller's built-in floats, which NumPy's operations take as they
    are. *)
Definition vs (self : t) (co2 o2 : R) (temp : option R)
    : option (Float64.t * Float64.t) :=
  let temp := py_or temp (ref_temp self) in
  rps <- concrete_temp self (Some temp) ;;
  Some (RuBisCOParamsNp.vs rps (Float64.Fin co2) (Float64.Fin o2)).

(** [ArrheniusRubisco.net_vc(self, co2, o2, temp=None)] *)
Definition net_vc (self : t) (co2 o2 : R) (temp : option R)
    : option Float64.t :=
  let temp := py_or temp (ref_temp self) in
  rps <- concrete_temp self (Some temp) ;;
  Some (RuBisCOParamsNp.net_vc rps (Float64.Fin co2) (Float64.Fin o2)).

End ArrheniusRubisco.

Definition ATHALIANA_T : ArrheniusRubisco.t :=
  ArrheniusRubisco.init
    (ArrheniusParam.init 3.1 _REF_T 59.6)
    (ArrheniusParam.init 36 _REF_T 63.0)
    (ArrheniusParam.init 23100 _REF_T 16.9)
    (ArrheniusParam.init 2003 _REF_T (-28.7))
    (Some _REF_T) (Some "A. thaliana"%string) None.

(** ** The formulas of the specification

    Written from the specification's sentences, with the total division of
    [R]; they are compared with what the code returns. *)

(** coefficient = referenceCoefficient *
    exp(temperatureDependence * (1/temperature - 1/referenceTemperature)) *)
Definition solubilityCoefficient_formula (hl : HenrysLaw.t) (temperature : R) : R :=
  HenrysLaw._ref_h_cp hl *
  exp (HenrysLaw._t_dep hl * (1 / temperature - 1 / HenrysLaw.ref_temp hl)).

(** scaledValue = referenceValue * exp((-activationEnergy / (R * temperature))
    * (referenceTemperature - temperature) / referenceTemperature) *)
Definition scaledValue_formula (a : ArrheniusParam.t) (temperature : R) : R :=
  ArrheniusParam.ref_value a *
  exp ((- ArrheniusParam.e_act a / (_R * temperature))
       * (ArrheniusParam.ref_temp a - temperature) / ArrheniusParam.ref_temp a).

(** vc = kcatCarboxylation /
    (1 + affinityCO2/co2 + affinityCO2*o2/(affinityO2*co2)) *)
Definition vc_formula (m : RuBisCOParams.t) (co2 o2 : R) : R :=
  RuBisCOParams.kcat_C m /
  (1 + RuBisCOParams.K_C m / co2
     + RuBisCOParams.K_C m * o2 / (RuBisCOParams.K_O m * co2)).

(** vo = kcatOxygenation /
    (1 + affinityO2/o2 + affinityO2*co2/(affinityCO2*o2)) *)
Definition vo_formula (m : RuBisCOParams.t) (co2 o2 : R) : R :=
  RuBisCOParams.kcat_O m /
  (1 + RuBisCOParams.K_O m / o2
     + RuBisCOParams.K_O m * co2 / (RuBisCOParams.K_C m * o2)).

(** The specificity reconstructed from the stored fields,
    kcatCarboxylation*affinityO2/(kcatOxygenation*affinityCO2): the quotient
    that the docstring of the constructor gives as the definition of S,
    computed as the code computes quotients. *)
Definition specificity_from_fields (m : RuBisCOParams.t) : option R :=
  div (RuBisCOParams.kcat_C m * RuBisCOParams.K_O m)
      (RuBisCOParams.kcat_O m * RuBisCOParams.K_C m).

(** * Properties *)

(** ** Division and the fallback idiom *)

Lemma div_defined (x y : R) : y <> 0 -> div x y = Some (x / y).
Proof.
  intros Hy. unfold div. destruct (Req_dec_T y 0) as [E | _]; [contradiction | reflexivity].
Qed.

Lemma div_by_zero (x : R) : div x 0 = None.
Proof.
  unfold div. destruct (Req_dec_T 0 0) as [_ | N]; [reflexivity | now elim N].
Qed.

Lemma div_None_iff (x y : R) : div x y = None <-> y = 0.
Proof.
  unfold div. destruct (Req_dec_T y 0) as [E | N]; split; intros H;
    try assumption; try reflexivity; [discriminate | contradiction].
Qed.

Lemma py_or_omitted (d : R) : py_or None d = d.
Proof. reflexivity. Qed.

Lemma py_or_zero (d : R) : py_or (Some 0) d = d.
Proof.
  unfold py_or. destruct (Req_dec_T 0 0) as [_ | N]; [reflexivity | now elim N].
Qed.

Lemma py_or_truthy (t d : R) : t <> 0 -> py_or (Some t) d = t.
Proof.
  intros Ht. unfold py_or. destruct (Req_dec_T t 0); [contradiction | reflexivity].
Qed.

(** ** Solubility (henrys_law.py) *)

Section Solubility.

Variable hl : HenrysLaw.t.

Let ref := HenrysLaw._ref_h_cp hl.
Let T0 := HenrysLaw.ref_temp hl.

Lemma h_cp_truthy (t : R) :
  t <> 0 -> T0 <> 0 ->
  HenrysLaw.h_cp hl (Some t) = Some (solubilityCoefficient_formula hl t).
Proof.
  intros Ht H0. unfold HenrysLaw.h_cp, solubilityCoefficient_formula.
  rewrite (py_or_truthy t) by assumption.
  rewrite (div_defined 1.0 t) by assumption.
  rewrite (div_defined 1.0 (HenrysLaw.ref_temp hl)) by assumption.
  cbn [bind]. do 3 f_equal. lra.
Qed.

Lemma h_cp_falsy (temp : option R) :
  py_or temp T0 = T0 -> T0 <> 0 ->
  HenrysLaw.h_cp hl temp = Some ref.
Proof.
  intros Hf H0. unfold HenrysLaw.h_cp. fold T0. rewrite Hf.
  rewrite (div_defined 1.0 T0) by assumption. cbn [bind].
  replace (1.0 / T0 - 1.0 / T0) with 0 by lra.
  rewrite Rmult_0_r, exp_0. f_equal. subst ref. lra.
Qed.

Lemma h_cp_None_iff (temp : option R) :
  HenrysLaw.h_cp hl temp = None <-> T0 = 0.
Proof.
  split.
  - intros H. destruct (Req_dec_T T0 0) as [E | N]; [exact E | exfalso].
    unfold HenrysLaw.h_cp in H. fold T0 in H.
    assert (Hnz : py_or temp T0 <> 0).
    { unfold py_or. destruct temp as [t |]; [| exact N].
      destruct (Req_dec_T t 0); assumption. }
    rewrite (div_defined _ _ Hnz), (div_defined _ _ N) in H. discriminate H.
  - intros E. unfold HenrysLaw.h_cp. fold T0. rewrite E.
    destruct (div 1.0 (py_or temp 0)); cbn [bind]; [| reflexivity].
    rewrite div_by_zero. reflexivity.
Qed.

Lemma molar_conc_unfold (p : R) (temp : option R) :
  HenrysLaw.molar_conc hl p temp =
  (h <- HenrysLaw.h_cp hl temp ;; Some (1e-3 * p * h)).
Proof.
  unfold HenrysLaw.molar_conc.
  destruct (HenrysLaw.h_cp hl temp) as [h |]; cbn [bind]; [| reflexivity].
  f_equal. ring.
Qed.

End Solubility.

(** C3: for a solubility model with a positive reference temperature and a
    supplied temperature [t > 0], [h_cp] returns
    [ref * exp (t_dep * (1/t - 1/ref_temp))]; with the temperature omitted
    the reference temperature takes its place; and at the reference
    temperature the result is the reference coefficient itself. *)
Theorem h_cp_formula (hl : HenrysLaw.t) (t : R) :
  0 < HenrysLaw.ref_temp hl -> 0 < t ->
  HenrysLaw.h_cp hl (Some t) = Some (solubilityCoefficient_formula hl t)
  /\ HenrysLaw.h_cp hl None =
     Some (solubilityCoefficient_formula hl (HenrysLaw.ref_temp hl))
  /\ HenrysLaw.h_cp hl (Some (HenrysLaw.ref_temp hl)) =
     Some (HenrysLaw._ref_h_cp hl).
Proof.
  intros H0 Ht.
  assert (N0 : HenrysLaw.ref_temp hl <> 0) by lra.
  assert (Nt : t <> 0) by lra.
  split; [| split].
  - now apply h_cp_truthy.
  - rewrite (h_cp_falsy hl None (py_or_omitted _) N0).
    rewrite <- (h_cp_truthy hl _ N0 N0).
    symmetry. apply h_cp_falsy; [now apply py_or_truthy | exact N0].
  - apply h_cp_falsy; [now apply py_or_truthy | exact N0].
Qed.

Lemma h_cp_formula_witness :
  HenrysLaw.h_cp CO2_SOL (Some 310) =
    Some (3.3e-4 * exp (2400 * (1 / 310 - 1 / 298.15)))
  /\ HenrysLaw.h_cp CO2_SOL None =
     Some (3.3e-4 * exp (2400 * (1 / 298.15 - 1 / 298.15)))
  /\ HenrysLaw.h_cp CO2_SOL (Some 298.15) = Some 3.3e-4.
Proof.
  apply (h_cp_formula CO2_SOL 310); cbn; unfold _REF_T; lra.
Defined.

(** C8: whatever the temperature argument, [molar_conc p temp] is
    [1e-3 * p * h_cp temp] (and fails exactly when [h_cp] does); for the CO2
    constant, [h_cp 298.15 = 3.3e-4] and [molar_conc 1.0 298.15 = 3.3e-7]. *)
Theorem molar_conc_formula (hl : HenrysLaw.t) (p : R) (temp : option R) :
  HenrysLaw.molar_conc hl p temp =
    (h <- HenrysLaw.h_cp hl temp ;; Some (1e-3 * p * h))
  /\ HenrysLaw.h_cp CO2_SOL (Some 298.15) = Some 3.3e-4
  /\ HenrysLaw.molar_conc CO2_SOL 1.0 (Some 298.15) = Some 3.3e-7.
Proof.
  assert (N : HenrysLaw.ref_temp CO2_SOL <> 0) by (cbn; unfold _REF_T; lra).
  assert (F : py_or (Some 298.15) (HenrysLaw.ref_temp CO2_SOL)
              = HenrysLaw.ref_temp CO2_SOL).
  { rewrite py_or_truthy by lra. cbn. unfold _REF_T. reflexivity. }
  assert (H : HenrysLaw.h_cp CO2_SOL (Some 298.15) = Some 3.3e-4)
    by exact (h_cp_falsy CO2_SOL _ F N).
  split; [apply molar_conc_unfold | split; [exact H |]].
  rewrite molar_conc_unfold, H. cbn [bind]. f_equal. lra.
Qed.

(** C9, as the code has it: [h_cp] and [molar_conc] fail only by dividing by
    zero, and they do so exactly when the model's reference temperature is
    zero, whatever the temperature argument; a temperature argument of zero
    is treated as an omitted one. *)
Theorem h_cp_fails_iff_ref_temp_zero (hl : HenrysLaw.t) (p : R) (temp : option R) :
  (HenrysLaw.h_cp hl temp = None <-> HenrysLaw.ref_temp hl = 0)
  /\ (HenrysLaw.molar_conc hl p temp = None <-> HenrysLaw.ref_temp hl = 0)
  /\ HenrysLaw.h_cp hl (Some 0) = HenrysLaw.h_cp hl None
  /\ HenrysLaw.molar_conc hl p (Some 0) = HenrysLaw.molar_conc hl p None.
Proof.
  assert (E : HenrysLaw.h_cp hl (Some 0) = HenrysLaw.h_cp hl None).
  { unfold HenrysLaw.h_cp. rewrite py_or_zero, py_or_omitted. reflexivity. }
  split; [apply h_cp_None_iff | split; [| split; [exact E |]]].
  - rewrite <- (h_cp_None_iff hl temp). unfold HenrysLaw.molar_conc.
    destruct (HenrysLaw.h_cp hl temp); cbn [bind]; split; intros H;
      try reflexivity; discriminate H.
  - unfold HenrysLaw.molar_conc. rewrite E. reflexivity.
Qed.

(** C9, as stated, fails: the CO2 constant called with temperature 0 divides
    by nothing that is zero and returns its reference coefficient. *)
Lemma h_cp_zero_temperature_counterexample :
  HenrysLaw.h_cp CO2_SOL (Some 0) = Some 3.3e-4
  /\ HenrysLaw.molar_conc CO2_SOL 1.0 (Some 0) = Some 3.3e-7
  /\ ~ (forall hl : HenrysLaw.t, HenrysLaw.h_cp hl (Some 0) = None).
Proof.
  assert (N : HenrysLaw.ref_temp CO2_SOL <> 0) by (cbn; unfold _REF_T; lra).
  assert (H : HenrysLaw.h_cp CO2_SOL (Some 0) = Some 3.3e-4)
    by exact (h_cp_falsy CO2_SOL _ (py_or_zero _) N).
  split; [exact H | split].
  - rewrite molar_conc_unfold, H. cbn [bind]. f_equal. lra.
  - intros A. rewrite (A CO2_SOL) in H. discriminate H.
Qed.

(** ** Arrhenius scaling (rubiscos.py) *)

Lemma _R_nonzero : _R <> 0.
Proof. unfold _R. lra. Qed.

Section Arrhenius.

Variable a : ArrheniusParam.t.

Let T0 := ArrheniusParam.ref_temp a.

Lemma value_truthy (t : R) :
  t <> 0 -> T0 <> 0 ->
  ArrheniusParam.value a (Some t) = Some (scaledValue_formula a t).
Proof.
  intros Ht H0. unfold ArrheniusParam.value, scaledValue_formula.
  rewrite (py_or_truthy t) by assumption.
  rewrite div_defined
    by (apply Rmult_integral_contrapositive_currified;
        [exact _R_nonzero | assumption]).
  cbn [bind]. rewrite div_defined by assumption. reflexivity.
Qed.

Lemma value_falsy (temp : option R) :
  py_or temp T0 = T0 -> T0 <> 0 ->
  ArrheniusParam.value a temp = Some (ArrheniusParam.ref_value a).
Proof.
  intros Hf H0. unfold ArrheniusParam.value. fold T0. rewrite Hf.
  rewrite div_defined
    by (apply Rmult_integral_contrapositive_currified;
        [exact _R_nonzero | assumption]).
  cbn [bind]. rewrite div_defined by assumption. cbn [bind].
  replace (- ArrheniusParam.e_act a / (_R * T0) * (T0 - T0) / T0) with 0.
  - rewrite exp_0. f_equal. lra.
  - unfold Rminus. rewrite Rplus_opp_r, Rmult_0_r. unfold Rdiv.
    now rewrite Rmult_0_l.
Qed.

Lemma scaledValue_positive_factor (t : R) :
  scaledValue_formula a t = 0 <-> ArrheniusParam.ref_value a = 0.
Proof.
  unfold scaledValue_formula. split; intros H.
  - apply Rmult_integral in H. destruct H as [H | H]; [exact H |].
    pose proof (exp_pos (- ArrheniusParam.e_act a / (_R * t)
                         * (ArrheniusParam.ref_temp a - t)
                         / ArrheniusParam.ref_temp a)). lra.
  - rewrite H. apply Rmult_0_l.
Qed.

End Arrhenius.

(** C4: for an Arrhenius parameter with a positive reference temperature and
    a supplied temperature [t > 0], [value] returns
    [ref_value * exp ((- e_act / (R * t)) * (ref_temp - t) / ref_temp)] with
    [R = 8.314e-3]; with the temperature omitted the parameter's own
    reference temperature takes its place; and at the reference temperature
    the result is the reference value itself. *)
Theorem value_formula (a : ArrheniusParam.t) (t : R) :
  0 < ArrheniusParam.ref_temp a -> 0 < t ->
  ArrheniusParam.value a (Some t) = Some (scaledValue_formula a t)
  /\ _R = 8.314e-3
  /\ ArrheniusParam.value a None =
     Some (scaledValue_formula a (ArrheniusParam.ref_temp a))
  /\ ArrheniusParam.value a (Some (ArrheniusParam.ref_temp a)) =
     Some (ArrheniusParam.ref_value a).
Proof.
  intros H0 Ht.
  assert (N0 : ArrheniusParam.ref_temp a <> 0) by lra.
  assert (Nt : t <> 0) by lra.
  assert (E : ArrheniusParam.value a (Some (ArrheniusParam.ref_temp a)) =
              Some (ArrheniusParam.ref_value a))
    by (apply value_falsy; [now apply py_or_truthy | exact N0]).
  split; [now apply value_truthy | split; [reflexivity | split; [| exact E]]].
  rewrite (value_falsy a None (py_or_omitted _) N0).
  rewrite <- (value_truthy a _ N0 N0). symmetry. exact E.
Qed.

Lemma value_formula_witness :
  ArrheniusParam.value (ArrheniusParam.init 3.1 298.15 59.6) (Some 310) =
    Some (3.1 * exp ((Ropp 59.6 / (8.314e-3 * 310)) * (298.15 - 310) / 298.15))
  /\ _R = 8.314e-3
  /\ ArrheniusParam.value (ArrheniusParam.init 3.1 298.15 59.6) None =
     Some (3.1 * exp ((Ropp 59.6 / (8.314e-3 * 298.15))
                      * (298.15 - 298.15) / 298.15))
  /\ ArrheniusParam.value (ArrheniusParam.init 3.1 298.15 59.6) (Some 298.15) =
     Some 3.1.
Proof.
  apply (value_formula (ArrheniusParam.init 3.1 298.15 59.6) 310); cbn; lra.
Defined.

(** ** Fixed-parameter kinetics (rubiscos.py) *)

Lemma one_point_zero : 1.0 = 1.
Proof. lra. Qed.

Lemma init_defined (kc KC KO s : R) (nm : option string) (m : option R) :
  KC <> 0 -> s <> 0 ->
  RuBisCOParams.init kc KC KO s nm m =
  Some (RuBisCOParams.mk kc KC KO s (kc * KO / (KC * s)) nm (kwarg 65e3 m)).
Proof.
  intros HK Hs. unfold RuBisCOParams.init.
  rewrite div_defined
    by (apply Rmult_integral_contrapositive_currified; assumption).
  reflexivity.
Qed.

Lemma vs_defined (m : RuBisCOParams.t) (co2 o2 : R) :
  co2 <> 0 -> o2 <> 0 ->
  RuBisCOParams.K_C m <> 0 -> RuBisCOParams.K_O m <> 0 ->
  1 + RuBisCOParams.K_C m / co2
    + RuBisCOParams.K_C m * o2 / (RuBisCOParams.K_O m * co2) <> 0 ->
  1 + RuBisCOParams.K_O m / o2
    + RuBisCOParams.K_O m * co2 / (RuBisCOParams.K_C m * o2) <> 0 ->
  RuBisCOParams.vs m co2 o2 = Some (vc_formula m co2 o2, vo_formula m co2 o2).
Proof.
  intros Hc Ho HKC HKO Dc Do. unfold RuBisCOParams.vs, vc_formula, vo_formula.
  rewrite one_point_zero.
  rewrite (div_defined _ co2) by assumption. cbn [bind].
  rewrite (div_defined _ (RuBisCOParams.K_O m * co2))
    by (apply Rmult_integral_contrapositive_currified; assumption).
  cbn [bind]. rewrite (div_defined (RuBisCOParams.kcat_C m)) by assumption.
  cbn [bind]. rewrite (div_defined _ o2) by assumption. cbn [bind].
  rewrite (div_defined _ (RuBisCOParams.K_C m * o2))
    by (apply Rmult_integral_contrapositive_currified; assumption).
  cbn [bind]. rewrite (div_defined (RuBisCOParams.kcat_O m)) by assumption.
  reflexivity.
Qed.

Lemma div_cases (x y : R) :
  (y = 0 /\ div x y = None) \/ (y <> 0 /\ div x y = Some (x / y)).
Proof.
  destruct (Req_dec_T y 0) as [E | N].
  - left. split; [exact E | now apply div_None_iff].
  - right. split; [exact N | now apply div_defined].
Qed.

(** [vs] raises exactly when one of the divisors of the two rate expressions
    is zero. *)
Lemma vs_None_iff (m : RuBisCOParams.t) (co2 o2 : R) :
  RuBisCOParams.vs m co2 o2 = None <->
  (co2 = 0 \/ o2 = 0
   \/ RuBisCOParams.K_C m = 0 \/ RuBisCOParams.K_O m = 0
   \/ 1 + RuBisCOParams.K_C m / co2
        + RuBisCOParams.K_C m * o2 / (RuBisCOParams.K_O m * co2) = 0
   \/ 1 + RuBisCOParams.K_O m / o2
        + RuBisCOParams.K_O m * co2 / (RuBisCOParams.K_C m * o2) = 0).
Proof.
  split.
  - intros H.
    destruct (Req_dec_T co2 0) as [| Hc]; [tauto |].
    destruct (Req_dec_T o2 0) as [| Ho]; [tauto |].
    destruct (Req_dec_T (RuBisCOParams.K_C m) 0) as [| HKC]; [tauto |].
    destruct (Req_dec_T (RuBisCOParams.K_O m) 0) as [| HKO]; [tauto |].
    destruct (Req_dec_T (1 + RuBisCOParams.K_C m / co2
        + RuBisCOParams.K_C m * o2 / (RuBisCOParams.K_O m * co2)) 0)
      as [| Dc]; [tauto |].
    destruct (Req_dec_T (1 + RuBisCOParams.K_O m / o2
        + RuBisCOParams.K_O m * co2 / (RuBisCOParams.K_C m * o2)) 0)
      as [| Do]; [tauto |].
    rewrite (vs_defined m co2 o2 Hc Ho HKC HKO Dc Do) in H. discriminate H.
  - intros H. unfold RuBisCOParams.vs. rewrite one_point_zero.
    destruct (div_cases (RuBisCOParams.K_C m) co2) as [[Z E] | [N E]];
      rewrite E; cbn [bind]; [reflexivity |].
    destruct (div_cases (RuBisCOParams.K_C m * o2) (RuBisCOParams.K_O m * co2))
      as [[Z1 E1] | [N1 E1]]; rewrite E1; cbn [bind]; [reflexivity |].
    destruct (div_cases (RuBisCOParams.kcat_C m)
                (1 + RuBisCOParams.K_C m / co2
                 + RuBisCOParams.K_C m * o2 / (RuBisCOParams.K_O m * co2)))
      as [[Z2 E2] | [N2 E2]]; rewrite E2; cbn [bind]; [reflexivity |].
    destruct (div_cases (RuBisCOParams.K_O m) o2) as [[Z3 E3] | [N3 E3]];
      rewrite E3; cbn [bind]; [reflexivity |].
    destruct (div_cases (RuBisCOParams.K_O m * co2) (RuBisCOParams.K_C m * o2))
      as [[Z4 E4] | [N4 E4]]; rewrite E4; cbn [bind]; [reflexivity |].
    destruct (div_cases (RuBisCOParams.kcat_O m)
                (1 + RuBisCOParams.K_O m / o2
                 + RuBisCOParams.K_O m * co2 / (RuBisCOParams.K_C m * o2)))
      as [[Z5 E5] | [N5 E5]]; rewrite E5; cbn [bind]; [reflexivity |].
    exfalso.
    destruct H as [H | [H | [H | [H | [H | H]]]]]; try contradiction.
    + apply N4. rewrite H. apply Rmult_0_l.
    + apply N1. rewrite H. apply Rmult_0_l.
Qed.

(** C2: wherever the divisors of the two rate expressions are nonzero, [vs]
    returns exactly the pair
    [vc = kcat_C / (1 + K_C/co2 + K_C*o2/(K_O*co2))],
    [vo = kcat_O / (1 + K_O/o2 + K_O*co2/(K_C*o2))],
    and [net_vc] returns [vc - vo/2]. *)
Theorem vs_formula (m : RuBisCOParams.t) (co2 o2 : R) :
  co2 <> 0 -> o2 <> 0 ->
  RuBisCOParams.K_C m <> 0 -> RuBisCOParams.K_O m <> 0 ->
  1 + RuBisCOParams.K_C m / co2
    + RuBisCOParams.K_C m * o2 / (RuBisCOParams.K_O m * co2) <> 0 ->
  1 + RuBisCOParams.K_O m / o2
    + RuBisCOParams.K_O m * co2 / (RuBisCOParams.K_C m * o2) <> 0 ->
  RuBisCOParams.vs m co2 o2 = Some (vc_formula m co2 o2, vo_formula m co2 o2)
  /\ RuBisCOParams.net_vc m co2 o2 =
     Some (vc_formula m co2 o2 - vo_formula m co2 o2 / 2).
Proof.
  intros Hc Ho HKC HKO Dc Do.
  pose proof (vs_defined m co2 o2 Hc Ho HKC HKO Dc Do) as E.
  split; [exact E |].
  unfold RuBisCOParams.net_vc. rewrite E. reflexivity.
Qed.

Lemma vs_formula_witness :
  RuBisCOParams.vs
    (RuBisCOParams.mk 14.4 172 585 43 (14.4 * 585 / (172 * 43)) None 65e3)
    200 200 =
  Some (vc_formula
          (RuBisCOParams.mk 14.4 172 585 43 (14.4 * 585 / (172 * 43)) None 65e3)
          200 200,
        vo_formula
          (RuBisCOParams.mk 14.4 172 585 43 (14.4 * 585 / (172 * 43)) None 65e3)
          200 200)
  /\ RuBisCOParams.net_vc
       (RuBisCOParams.mk 14.4 172 585 43 (14.4 * 585 / (172 * 43)) None 65e3)
       200 200 =
     Some (vc_formula
             (RuBisCOParams.mk 14.4 172 585 43 (14.4 * 585 / (172 * 43)) None 65e3)
             200 200
           - vo_formula
               (RuBisCOParams.mk 14.4 172 585 43 (14.4 * 585 / (172 * 43)) None 65e3)
               200 200 / 2).
Proof.
  apply (vs_formula
           (RuBisCOParams.mk 14.4 172 585 43 (14.4 * 585 / (172 * 43)) None 65e3)
           200 200); cbn; lra.
Defined.

(** C2, as stated, fails: for the model built from
    [kcat_C = K_C = K_O = S = 1], at the nonzero concentrations
    [co2 = -2] and [o2 = 1], the carboxylation denominator
    [1 + 1/(-2) + 1*1/(1*(-2))] is zero, so [vs] and [net_vc] raise instead
    of returning. *)
Lemma vs_formula_counterexample :
  -2 <> 0 /\ 1 <> 0
  /\ RuBisCOParams.init 1 1 1 1 None None =
     Some (RuBisCOParams.mk 1 1 1 1 1 None 65e3)
  /\ RuBisCOParams.vs (RuBisCOParams.mk 1 1 1 1 1 None 65e3) (-2) 1 = None
  /\ RuBisCOParams.net_vc (RuBisCOParams.mk 1 1 1 1 1 None 65e3) (-2) 1 = None.
Proof.
  assert (E : RuBisCOParams.vs (RuBisCOParams.mk 1 1 1 1 1 None 65e3) (-2) 1
              = None).
  { apply vs_None_iff. do 4 right. left. cbn. lra. }
  split; [lra | split; [lra | split; [| split; [exact E |]]]].
  - rewrite init_defined by lra. cbn. do 2 f_equal. lra.
  - unfold RuBisCOParams.net_vc. rewrite E. reflexivity.
Qed.

(** C7, as the code has it: the constructor stores
    [kcat_O = kcat_C * K_O / (K_C * S)], and when [kcat_C] and [K_O] are
    nonzero as well, the quotient [kcat_C * K_O / (kcat_O * K_C)] of the
    stored fields is the supplied [S]. *)
Theorem specificity_roundtrip (kc KC KO s : R) (nm : option string) (m : option R) :
  KC <> 0 -> s <> 0 ->
  exists p : RuBisCOParams.t,
    RuBisCOParams.init kc KC KO s nm m = Some p
    /\ RuBisCOParams.kcat_O p = kc * KO / (KC * s)
    /\ (kc <> 0 -> KO <> 0 -> specificity_from_fields p = Some s).
Proof.
  intros HK Hs. eexists. split; [apply init_defined; assumption |].
  split; [reflexivity |]. intros Hkc HKO.
  unfold specificity_from_fields. cbn.
  assert (Hq : kc * KO / (KC * s) * KC <> 0).
  { apply Rmult_integral_contrapositive_currified; [| exact HK].
    unfold Rdiv. apply Rmult_integral_contrapositive_currified.
    - apply Rmult_integral_contrapositive_currified; assumption.
    - apply Rinv_neq_0_compat.
      apply Rmult_integral_contrapositive_currified; assumption. }
  rewrite div_defined by exact Hq. f_equal. field. repeat split; assumption.
Qed.

Lemma specificity_roundtrip_witness :
  exists p : RuBisCOParams.t,
    RuBisCOParams.init 14.4 172 585 43 (Some "PCC7942"%string) None = Some p
    /\ RuBisCOParams.kcat_O p = 14.4 * 585 / (172 * 43)
    /\ specificity_from_fields p = Some 43.
Proof.
  destruct (specificity_roundtrip 14.4 172 585 43 (Some "PCC7942"%string) None)
    as (p & E & Q & H); [lra | lra |].
  exists p. split; [exact E | split; [exact Q | apply H; lra]].
Defined.

(** C7, as stated, fails: with [kcat_C = 0] and the other three parameters
    equal to 1 the constructor succeeds and stores [kcat_O = 0], so the
    quotient divides by zero instead of giving back [S = 1]. *)
Lemma specificity_roundtrip_counterexample :
  (1 <> 0)
  /\ RuBisCOParams.init 0 1 1 1 None None =
     Some (RuBisCOParams.mk 0 1 1 1 0 None 65e3)
  /\ specificity_from_fields (RuBisCOParams.mk 0 1 1 1 0 None 65e3) = None
  /\ specificity_from_fields (RuBisCOParams.mk 0 1 1 1 0 None 65e3) <> Some 1.
Proof.
  assert (E : specificity_from_fields (RuBisCOParams.mk 0 1 1 1 0 None 65e3) = None).
  { unfold specificity_from_fields. cbn. apply div_None_iff. lra. }
  split; [lra | split; [| split; [exact E | rewrite E; discriminate]]].
  rewrite init_defined by lra. cbn. do 2 f_equal. lra.
Qed.

(** C10: with the [mw] argument omitted both constructors store 65e3, so
    every named enzyme constant carries 65000 except Rubrum, which is given
    52e3. *)
Theorem default_mw (kc KC KO s : R) (a b c d : ArrheniusParam.t)
    (rt : option R) (nm : option string) :
  KC <> 0 -> s <> 0 ->
  (exists p, RuBisCOParams.init kc KC KO s nm None = Some p
             /\ RuBisCOParams.mw p = 65e3)
  /\ ArrheniusRubisco.mw (ArrheniusRubisco.init a b c d rt nm None) = 65e3
  /\ (exists p, PCC7942 = Some p /\ RuBisCOParams.mw p = 65000)
  /\ (exists p, RUBRUM = Some p /\ RuBisCOParams.mw p = 52000)
  /\ (exists p, SPINACH = Some p /\ RuBisCOParams.mw p = 65000)
  /\ (exists p, MAIZE = Some p /\ RuBisCOParams.mw p = 65000)
  /\ (exists p, TOBACCO = Some p /\ RuBisCOParams.mw p = 65000)
  /\ ArrheniusRubisco.mw ATHALIANA_T = 65000.
Proof.
  intros HK Hs.
  assert (D : forall x y z w n,
             y <> 0 -> w <> 0 ->
             exists p, RuBisCOParams.init x y z w n None = Some p
                       /\ RuBisCOParams.mw p = 65000).
  { intros x y z w n Hy Hw. eexists. split; [now apply init_defined |].
    cbn. lra. }
  split.
  { destruct (D kc KC KO s nm HK Hs) as (p & E & M).
    exists p. split; [exact E | lra]. }
  split; [reflexivity |].
  split; [apply D; lra |].
  split.
  { eexists. split; [unfold RUBRUM; apply init_defined; lra | cbn; lra]. }
  split; [apply D; lra |].
  split; [apply D; lra |].
  split; [apply D; lra |].
  cbn. lra.
Qed.

Lemma default_mw_witness :
  (exists p, RuBisCOParams.init 3.7 14 480 80 (Some "Spinach"%string) None = Some p
             /\ RuBisCOParams.mw p = 65e3)
  /\ ArrheniusRubisco.mw
       (ArrheniusRubisco.init
          (ArrheniusParam.init 3.1 298.15 59.6)
          (ArrheniusParam.init 36 298.15 63.0)
          (ArrheniusParam.init 23100 298.15 16.9)
          (ArrheniusParam.init 2003 298.15 (-28.7))
          None (Some "Spinach"%string) None) = 65e3
  /\ (exists p, PCC7942 = Some p /\ RuBisCOParams.mw p = 65000)
  /\ (exists p, RUBRUM = Some p /\ RuBisCOParams.mw p = 52000)
  /\ (exists p, SPINACH = Some p /\ RuBisCOParams.mw p = 65000)
  /\ (exists p, MAIZE = Some p /\ RuBisCOParams.mw p = 65000)
  /\ (exists p, TOBACCO = Some p /\ RuBisCOParams.mw p = 65000)
  /\ ArrheniusRubisco.mw ATHALIANA_T = 65000.
Proof.
  apply (default_mw 3.7 14 480 80); lra.
Defined.

(** ** Monotonicity of the net carboxylation rate *)

Section NetRate.

Variables kc KC KO s : R.
Hypothesis kc_pos : 0 < kc.
Hypothesis KC_pos : 0 < KC.
Hypothesis KO_pos : 0 < KO.
Hypothesis s_pos : 0 < s.

Variable nm : option string.
Variable m : option R.

(** The model the constructor builds from these arguments. *)
Let built : RuBisCOParams.t :=
  RuBisCOParams.mk kc KC KO s (kc * KO / (KC * s)) nm (kwarg 65e3 m).

(** Both rate expressions share one denominator once fractions are cleared. *)
Let den (co2 o2 : R) : R := KO * co2 + KC * KO + KC * o2.

Let closed (co2 o2 : R) : R :=
  kc * KO * (2 * s * co2 - o2) / (2 * s * den co2 o2).

Lemma den_pos (co2 o2 : R) : 0 < co2 -> 0 < o2 -> 0 < den co2 o2.
Proof.
  intros Hc Ho. unfold den.
  pose proof (Rmult_lt_0_compat _ _ KO_pos Hc).
  pose proof (Rmult_lt_0_compat _ _ KC_pos KO_pos).
  pose proof (Rmult_lt_0_compat _ _ KC_pos Ho). lra.
Qed.

Lemma net_vc_closed_form (co2 o2 : R) :
  0 < co2 -> 0 < o2 ->
  RuBisCOParams.net_vc built co2 o2 = Some (closed co2 o2).
Proof.
  intros Hc Ho. pose proof (den_pos co2 o2 Hc Ho) as HD. unfold den in HD.
  assert (Ec : 1 + KC / co2 + KC * o2 / (KO * co2)
               = (KO * co2 + KC * KO + KC * o2) / (KO * co2))
    by (field; split; lra).
  assert (Eo : 1 + KO / o2 + KO * co2 / (KC * o2)
               = (KO * co2 + KC * KO + KC * o2) / (KC * o2))
    by (field; split; lra).
  assert (PKc : 0 < KO * co2) by (apply Rmult_lt_0_compat; assumption).
  assert (PKo : 0 < KC * o2) by (apply Rmult_lt_0_compat; assumption).
  assert (Dc : 1 + KC / co2 + KC * o2 / (KO * co2) <> 0).
  { rewrite Ec. apply Rgt_not_eq. now apply Rdiv_lt_0_compat. }
  assert (Do : 1 + KO / o2 + KO * co2 / (KC * o2) <> 0).
  { rewrite Eo. apply Rgt_not_eq. now apply Rdiv_lt_0_compat. }
  unfold RuBisCOParams.net_vc.
  rewrite (vs_defined built co2 o2); cbn; try lra; try assumption.
  f_equal. unfold vc_formula, vo_formula, closed, den. cbn.
  rewrite Ec, Eo. field. repeat split; lra.
Qed.

Lemma closed_decreasing_in_o2 (co2 o2 o2' : R) :
  0 < co2 -> 0 < o2 -> o2 < o2' -> closed co2 o2' < closed co2 o2.
Proof.
  intros Hc Ho Hlt.
  assert (Ho' : 0 < o2') by lra.
  pose proof (den_pos co2 o2 Hc Ho) as D1.
  pose proof (den_pos co2 o2' Hc Ho') as D2.
  apply (proj1 (Rlt_0_minus _ _)).
  replace (closed co2 o2 - closed co2 o2')
    with (kc * KO * ((o2' - o2) * (2 * s * co2 * KC + KO * co2 + KC * KO))
          / (2 * s * (den co2 o2 * den co2 o2')))
    by (unfold closed; unfold den in *; field; repeat split; lra).
  apply Rdiv_lt_0_compat.
  - repeat apply Rmult_lt_0_compat; try lra.
    pose proof (Rmult_lt_0_compat _ _ s_pos Hc).
    pose proof (Rmult_lt_0_compat _ _ (Rmult_lt_0_compat _ _ s_pos Hc) KC_pos).
    pose proof (Rmult_lt_0_compat _ _ KO_pos Hc).
    pose proof (Rmult_lt_0_compat _ _ KC_pos KO_pos). lra.
  - repeat apply Rmult_lt_0_compat; lra.
Qed.

Lemma closed_increasing_in_co2 (o2 co2 co2' : R) :
  0 < o2 -> 0 < co2 -> co2 < co2' -> closed co2 o2 < closed co2' o2.
Proof.
  intros Ho Hc Hlt.
  assert (Hc' : 0 < co2') by lra.
  pose proof (den_pos co2 o2 Hc Ho) as D1.
  pose proof (den_pos co2' o2 Hc' Ho) as D2.
  apply (proj1 (Rlt_0_minus _ _)).
  replace (closed co2' o2 - closed co2 o2)
    with (kc * KO * ((co2' - co2) * (2 * s * (KC * KO + KC * o2) + o2 * KO))
          / (2 * s * (den co2 o2 * den co2' o2)))
    by (unfold closed; unfold den in *; field; repeat split; lra).
  apply Rdiv_lt_0_compat.
  - repeat apply Rmult_lt_0_compat; try lra.
    pose proof (Rmult_lt_0_compat _ _ KC_pos KO_pos).
    pose proof (Rmult_lt_0_compat _ _ KC_pos Ho).
    pose proof (Rmult_lt_0_compat _ _ Ho KO_pos).
    assert (0 < s * (KC * KO + KC * o2)) by (apply Rmult_lt_0_compat; lra).
    lra.
  - repeat apply Rmult_lt_0_compat; lra.
Qed.

Lemma built_by_init :
  RuBisCOParams.init kc KC KO s nm m = Some built.
Proof. apply init_defined; lra. Qed.

(** C6: for a model built from positive [kcat_C], [K_C], [K_O] and [S], the
    net carboxylation rate is defined at all positive concentrations, falls
    strictly when [o2] grows at fixed [co2 > 0], and rises strictly when
    [co2] grows at fixed [o2 > 0]. *)
Theorem net_vc_monotone :
  exists p : RuBisCOParams.t,
    RuBisCOParams.init kc KC KO s nm m = Some p
    /\ (forall co2 o2 o2' : R,
          0 < co2 -> 0 < o2 -> o2 < o2' ->
          exists v v' : R,
            RuBisCOParams.net_vc p co2 o2 = Some v
            /\ RuBisCOParams.net_vc p co2 o2' = Some v'
            /\ v' < v)
    /\ (forall o2 co2 co2' : R,
          0 < o2 -> 0 < co2 -> co2 < co2' ->
          exists v v' : R,
            RuBisCOParams.net_vc p co2 o2 = Some v
            /\ RuBisCOParams.net_vc p co2' o2 = Some v'
            /\ v < v').
Proof.
  exists built. split; [exact built_by_init | split].
  - intros co2 o2 o2' Hc Ho Hlt.
    exists (closed co2 o2), (closed co2 o2').
    split; [now apply net_vc_closed_form |].
    split; [apply net_vc_closed_form; lra |].
    now apply closed_decreasing_in_o2.
  - intros o2 co2 co2' Ho Hc Hlt.
    exists (closed co2 o2), (closed co2' o2).
    split; [now apply net_vc_closed_form |].
    split; [apply net_vc_closed_form; lra |].
    now apply closed_increasing_in_co2.
Qed.

End NetRate.

Lemma net_vc_monotone_witness :
  exists p : RuBisCOParams.t,
    PCC7942 = Some p
    /\ (exists v v' : R,
          RuBisCOParams.net_vc p 200 200 = Some v
          /\ RuBisCOParams.net_vc p 200 300 = Some v'
          /\ v' < v)
    /\ (exists v v' : R,
          RuBisCOParams.net_vc p 200 200 = Some v
          /\ RuBisCOParams.net_vc p 300 200 = Some v'
          /\ v < v').
Proof.
  destruct (net_vc_monotone 14.4 172 585 43) with
    (nm := Some "PCC7942"%string) (m := @None R)
    as (p & E & Ho & Hc); try lra.
  exists p. split; [exact E | split].
  - apply (Ho 200 200 300); lra.
  - apply (Hc 200 200 300); lra.
Defined.

(** ** numpy.float64 arithmetic on finite values *)

Lemma is_zero_real (x : Float64.t) (a : R) :
  Float64.real x = Some a -> (Float64.is_zero x = true <-> a = 0).
Proof.
  destruct x as [r | | s |]; cbn; intros H; try discriminate H;
    injection H as <-.
  - destruct (Req_dec_T r 0); split; intros E; try assumption;
      try reflexivity; [discriminate E | contradiction].
  - split; reflexivity.
Qed.

Lemma finite_value_real (x : Float64.t) (a : R) :
  Float64.real x = Some a -> Float64.finite_value x = a.
Proof.
  destruct x; cbn; intros H; try discriminate H; now injection H.
Qed.

Lemma real_zero (s : bool) : Float64.real (Float64.zero s) = Some 0.
Proof. destruct s; reflexivity. Qed.

Lemma real_mul (x y : Float64.t) (a b : R) :
  Float64.real x = Some a -> Float64.real y = Some b ->
  Float64.real (Float64.mul x y) = Some (a * b).
Proof.
  intros Hx Hy.
  pose proof (is_zero_real x a Hx) as Zx. pose proof (is_zero_real y b Hy) as Zy.
  pose proof (finite_value_real x a Hx) as Vx.
  pose proof (finite_value_real y b Hy) as Vy.
  assert (E : Float64.mul x y =
              if Float64.is_zero x || Float64.is_zero y
              then Float64.zero (xorb (Float64.negative x) (Float64.negative y))
              else Float64.Fin (Float64.finite_value x * Float64.finite_value y))
    by (destruct x, y; try discriminate Hx; try discriminate Hy; reflexivity).
  rewrite E.
  destruct (Float64.is_zero x) eqn:Ex; cbn [orb].
  - rewrite real_zero. f_equal. rewrite (proj1 Zx eq_refl). ring.
  - destruct (Float64.is_zero y) eqn:Ey.
    + rewrite real_zero. f_equal. rewrite (proj1 Zy eq_refl). ring.
    + cbn. now rewrite Vx, Vy.
Qed.

Lemma real_div (x y : Float64.t) (a b : R) :
  Float64.real x = Some a -> Float64.real y = Some b -> b <> 0 ->
  Float64.real (Float64.div x y) = Some (a / b).
Proof.
  intros Hx Hy Hb.
  pose proof (is_zero_real x a Hx) as Zx. pose proof (is_zero_real y b Hy) as Zy.
  pose proof (finite_value_real x a Hx) as Vx.
  pose proof (finite_value_real y b Hy) as Vy.
  assert (Ey : Float64.is_zero y = false).
  { destruct (Float64.is_zero y); [| reflexivity].
    exfalso. apply Hb. now apply Zy. }
  assert (E : Float64.div x y =
              if Float64.is_zero x
              then Float64.zero (xorb (Float64.negative x) (Float64.negative y))
              else Float64.Fin (Float64.finite_value x / Float64.finite_value y)).
  { destruct x, y; try discriminate Hx; try discriminate Hy;
      unfold Float64.div; rewrite Ey; reflexivity. }
  rewrite E. destruct (Float64.is_zero x) eqn:Ex.
  - rewrite real_zero. f_equal. rewrite (proj1 Zx eq_refl).
    unfold Rdiv. ring.
  - cbn. now rewrite Vx, Vy.
Qed.

Lemma real_add (x y : Float64.t) (a b : R) :
  Float64.real x = Some a -> Float64.real y = Some b ->
  Float64.real (Float64.add x y) = Some (a + b).
Proof.
  destruct x, y; cbn; intros Hx Hy; try discriminate Hx; try discriminate Hy;
    injection Hx as <-; injection Hy as <-; f_equal; ring.
Qed.

Lemma real_opp (x : Float64.t) (a : R) :
  Float64.real x = Some a -> Float64.real (Float64.opp x) = Some (- a).
Proof.
  destruct x as [r | | s |]; cbn; intros H; try discriminate H;
    injection H as <-.
  - destruct (Req_dec_T r 0) as [-> | N]; cbn; f_equal; ring.
  - f_equal. ring.
Qed.

Lemma real_sub (x y : Float64.t) (a b : R) :
  Float64.real x = Some a -> Float64.real y = Some b ->
  Float64.real (Float64.sub x y) = Some (a - b).
Proof.
  intros Hx Hy. unfold Float64.sub.
  rewrite (real_add x (Float64.opp y) a (- b) Hx (real_opp y b Hy)).
  reflexivity.
Qed.

Lemma real_div_by_zero (x y : Float64.t) (a : R) :
  Float64.real x = Some a -> Float64.real y = Some 0 ->
  Float64.real (Float64.div x y) = None.
Proof.
  intros Hx Hy.
  assert (Zy : Float64.is_zero y = true) by now apply (is_zero_real y 0 Hy).
  assert (E : Float64.div x y =
              if Float64.is_zero x then Float64.NaN
              else Float64.Inf (xorb (Float64.negative x) (Float64.negative y)))
    by (destruct x, y; try discriminate Hx; try discriminate Hy;
        unfold Float64.div; rewrite Zy; reflexivity).
  rewrite E. destruct (Float64.is_zero x); reflexivity.
Qed.

(** ** Temperature-dependent kinetics (rubiscos.py) *)

Lemma solubilityCoefficient_nonzero (hl : HenrysLaw.t) (t : R) :
  HenrysLaw._ref_h_cp hl <> 0 -> solubilityCoefficient_formula hl t <> 0.
Proof.
  intros H. unfold solubilityCoefficient_formula.
  apply Rmult_integral_contrapositive_currified; [exact H |].
  apply Rgt_not_eq, exp_pos.
Qed.

Lemma gas_constants_defined (t : R) :
  t <> 0 ->
  HenrysLaw.h_cp O2_SOL (Some t) = Some (solubilityCoefficient_formula O2_SOL t)
  /\ HenrysLaw.h_cp CO2_SOL (Some t) = Some (solubilityCoefficient_formula CO2_SOL t)
  /\ solubilityCoefficient_formula O2_SOL t <> 0
  /\ solubilityCoefficient_formula CO2_SOL t <> 0.
Proof.
  intros Ht.
  assert (N : _REF_T <> 0) by (unfold _REF_T; lra).
  repeat split.
  - apply h_cp_truthy; [exact Ht | exact N].
  - apply h_cp_truthy; [exact Ht | exact N].
  - apply solubilityCoefficient_nonzero. cbn. lra.
  - apply solubilityCoefficient_nonzero. cbn. lra.
Qed.

Section Conversion.

Variable m : ArrheniusRubisco.t.
Variable temp : option R.
Variables kc KC KO s h_o h_c : R.

Hypothesis kcat_C_value :
  ArrheniusParam.value (ArrheniusRubisco.kcat_C m) temp = Some kc.
Hypothesis K_C_value :
  ArrheniusParam.value (ArrheniusRubisco.K_C m) temp = Some KC.
Hypothesis K_O_value :
  ArrheniusParam.value (ArrheniusRubisco.K_O m) temp = Some KO.
Hypothesis S_value :
  ArrheniusParam.value (ArrheniusRubisco.S m) temp = Some s.
Hypothesis O2_h_cp : HenrysLaw.h_cp O2_SOL temp = Some h_o.
Hypothesis CO2_h_cp : HenrysLaw.h_cp CO2_SOL temp = Some h_c.

(** The model [concrete_temp] constructs from these values. *)
Let converted : RuBisCOParamsNp.t :=
  RuBisCOParamsNp.init (Float64.Fin kc)
    (Float64.Fin (1e-3 * (KC * h_c) * 1e6))
    (Float64.Fin (1e-3 * (KO * h_o) * 1e6))
    (Float64.mul (Float64.Fin s)
       (Float64.div (Float64.Fin h_o) (Float64.Fin h_c)))
    (ArrheniusRubisco.name m) (Some (ArrheniusRubisco.mw m)).

Lemma concrete_temp_from_values :
  ArrheniusRubisco.concrete_temp m temp = Some converted.
Proof.
  unfold ArrheniusRubisco.concrete_temp, HenrysLaw.molar_conc.
  rewrite kcat_C_value, K_C_value, K_O_value, S_value. cbn [bind].
  rewrite CO2_h_cp, O2_h_cp. reflexivity.
Qed.

Lemma converted_S :
  h_c <> 0 ->
  Float64.real (RuBisCOParamsNp.S converted) = Some (s * (h_o / h_c)).
Proof.
  intros Nc. cbn [converted RuBisCOParamsNp.init RuBisCOParamsNp.S].
  apply real_mul; [reflexivity |]. now apply real_div.
Qed.

Lemma converted_kcat_O :
  KC <> 0 -> s <> 0 -> h_o <> 0 -> h_c <> 0 ->
  Float64.real (RuBisCOParamsNp.kcat_O converted) = Some (kc * KO / (KC * s)).
Proof.
  intros NKC Ns No Nc.
  cbn [converted RuBisCOParamsNp.init RuBisCOParamsNp.kcat_O].
  replace (kc * KO / (KC * s))
    with (kc * (1e-3 * (KO * h_o) * 1e6)
          / (1e-3 * (KC * h_c) * 1e6 * (s * (h_o / h_c))))
    by (field; repeat split; assumption).
  apply real_div.
  - now apply real_mul.
  - apply real_mul; [reflexivity |].
    apply real_mul; [reflexivity |]. now apply real_div.
  - apply Rmult_integral_contrapositive_currified.
    + apply Rmult_integral_contrapositive_currified; [| lra].
      apply Rmult_integral_contrapositive_currified; [lra |].
      apply Rmult_integral_contrapositive_currified; assumption.
    + apply Rmult_integral_contrapositive_currified; [exact Ns |].
      unfold Rdiv. apply Rmult_integral_contrapositive_currified;
        [exact No | now apply Rinv_neq_0_compat].
Qed.

End Conversion.

Section ConcreteTemp.

Variable m : ArrheniusRubisco.t.
Variable t : R.

Hypothesis t_nonzero : t <> 0.
Hypothesis kcat_C_ref_temp : ArrheniusParam.ref_temp (ArrheniusRubisco.kcat_C m) <> 0.
Hypothesis K_C_ref_temp : ArrheniusParam.ref_temp (ArrheniusRubisco.K_C m) <> 0.
Hypothesis K_O_ref_temp : ArrheniusParam.ref_temp (ArrheniusRubisco.K_O m) <> 0.
Hypothesis S_ref_temp : ArrheniusParam.ref_temp (ArrheniusRubisco.S m) <> 0.

Lemma concrete_temp_defined :
  exists (p : RuBisCOParamsNp.t) (kc KC KO s c o h_o h_c : R),
    ArrheniusRubisco.concrete_temp m (Some t) = Some p
    /\ (ArrheniusParam.value (ArrheniusRubisco.kcat_C m) (Some t) = Some kc
        /\ RuBisCOParamsNp.kcat_C p = Float64.Fin kc)
    /\ (ArrheniusParam.value (ArrheniusRubisco.K_C m) (Some t) = Some KC
        /\ HenrysLaw.molar_conc CO2_SOL KC (Some t) = Some c
        /\ RuBisCOParamsNp.K_C p = Float64.Fin (c * 1e6))
    /\ (ArrheniusParam.value (ArrheniusRubisco.K_O m) (Some t) = Some KO
        /\ HenrysLaw.molar_conc O2_SOL KO (Some t) = Some o
        /\ RuBisCOParamsNp.K_O p = Float64.Fin (o * 1e6))
    /\ (ArrheniusParam.value (ArrheniusRubisco.S m) (Some t) = Some s
        /\ HenrysLaw.h_cp O2_SOL (Some t) = Some h_o
        /\ HenrysLaw.h_cp CO2_SOL (Some t) = Some h_c
        /\ Float64.real (RuBisCOParamsNp.S p) = Some (s * (h_o / h_c))).
Proof.
  destruct (gas_constants_defined t t_nonzero) as (HO & HC & NO & NC).
  pose proof (value_truthy (ArrheniusRubisco.kcat_C m) t t_nonzero
                kcat_C_ref_temp) as V1.
  pose proof (value_truthy (ArrheniusRubisco.K_C m) t t_nonzero
                K_C_ref_temp) as V2.
  pose proof (value_truthy (ArrheniusRubisco.K_O m) t t_nonzero
                K_O_ref_temp) as V3.
  pose proof (value_truthy (ArrheniusRubisco.S m) t t_nonzero
                S_ref_temp) as V4.
  eexists. do 8 eexists.
  split; [exact (concrete_temp_from_values m (Some t) _ _ _ _ _ _
                   V1 V2 V3 V4 HO HC) |].
  split; [split; [exact V1 | reflexivity] |].
  split; [split; [exact V2 | split; [| reflexivity]] |].
  { unfold HenrysLaw.molar_conc. rewrite HC. reflexivity. }
  split; [split; [exact V3 | split; [| reflexivity]] |].
  { unfold HenrysLaw.molar_conc. rewrite HO. reflexivity. }
  split; [exact V4 | split; [exact HO | split; [exact HC |]]].
  now apply converted_S.
Qed.

End ConcreteTemp.

(** C1: for a temperature-dependent model whose four Arrhenius parameters
    have positive reference temperatures, and for [t > 0],
    [concrete_temp t] returns a model [p] with
    [kcat_C p = kcat_C.value(t)],
    [K_C p = CO2_SOL.molar_conc(K_C.value(t), t) * 1e6],
    [K_O p = O2_SOL.molar_conc(K_O.value(t), t) * 1e6] and
    [S p = S.value(t) * (O2_SOL.h_cp(t) / CO2_SOL.h_cp(t))], whatever the
    reference values are; for the A. thaliana constant at 298.15 K the
    carboxylation turnover is 3.1. *)
Theorem concrete_temp_fields (m : ArrheniusRubisco.t) (t : R) :
  0 < t ->
  0 < ArrheniusParam.ref_temp (ArrheniusRubisco.kcat_C m) ->
  0 < ArrheniusParam.ref_temp (ArrheniusRubisco.K_C m) ->
  0 < ArrheniusParam.ref_temp (ArrheniusRubisco.K_O m) ->
  0 < ArrheniusParam.ref_temp (ArrheniusRubisco.S m) ->
  (exists (p : RuBisCOParamsNp.t) (kc KC KO s c o h_o h_c : R),
     ArrheniusRubisco.concrete_temp m (Some t) = Some p
     /\ (ArrheniusParam.value (ArrheniusRubisco.kcat_C m) (Some t) = Some kc
         /\ RuBisCOParamsNp.kcat_C p = Float64.Fin kc)
     /\ (ArrheniusParam.value (ArrheniusRubisco.K_C m) (Some t) = Some KC
         /\ HenrysLaw.molar_conc CO2_SOL KC (Some t) = Some c
         /\ RuBisCOParamsNp.K_C p = Float64.Fin (c * 1e6))
     /\ (ArrheniusParam.value (ArrheniusRubisco.K_O m) (Some t) = Some KO
         /\ HenrysLaw.molar_conc O2_SOL KO (Some t) = Some o
         /\ RuBisCOParamsNp.K_O p = Float64.Fin (o * 1e6))
     /\ (ArrheniusParam.value (ArrheniusRubisco.S m) (Some t) = Some s
         /\ HenrysLaw.h_cp O2_SOL (Some t) = Some h_o
         /\ HenrysLaw.h_cp CO2_SOL (Some t) = Some h_c
         /\ Float64.real (RuBisCOParamsNp.S p) = Some (s * (h_o / h_c))))
  /\ (exists q : RuBisCOParamsNp.t,
        ArrheniusRubisco.concrete_temp ATHALIANA_T (Some 298.15) = Some q
        /\ RuBisCOParamsNp.kcat_C q = Float64.Fin 3.1).
Proof.
  intros Ht H1 H2 H3 H4.
  split; [apply concrete_temp_defined; lra |].
  destruct (concrete_temp_defined ATHALIANA_T 298.15)
    as (q & kc & _ & _ & _ & _ & _ & _ & _ & E & (V & K) & _);
    try (cbn; unfold _REF_T; lra).
  exists q. split; [exact E |].
  rewrite (value_falsy (ArrheniusRubisco.kcat_C ATHALIANA_T)) in V.
  - cbn in V. injection V as <-. exact K.
  - cbn. unfold _REF_T. apply py_or_truthy. lra.
  - cbn. unfold _REF_T. lra.
Qed.

Lemma concrete_temp_fields_witness :
  exists (p : RuBisCOParamsNp.t) (kc : R),
    ArrheniusRubisco.concrete_temp ATHALIANA_T (Some 310) = Some p
    /\ ArrheniusParam.value (ArrheniusRubisco.kcat_C ATHALIANA_T) (Some 310)
       = Some kc
    /\ RuBisCOParamsNp.kcat_C p = Float64.Fin kc.
Proof.
  destruct (concrete_temp_fields ATHALIANA_T 310)
    as ((p & kc & _ & _ & _ & _ & _ & _ & _ & E & (V & K) & _) & _);
    try (cbn; unfold _REF_T; lra).
  exists p, kc. split; [exact E | split; [exact V | exact K]].
Defined.

(** C5: [vs] and [net_vc] of a temperature-dependent model are those of the
    model [concrete_temp] builds at the resolved temperature: the model's
    reference temperature when the argument is omitted or is zero, and the
    argument itself when it is nonzero. *)
Theorem vs_delegates (m : ArrheniusRubisco.t) (co2 o2 t : R) :
  t <> 0 ->
  (ArrheniusRubisco.vs m co2 o2 (Some t) =
     (p <- ArrheniusRubisco.concrete_temp m (Some t) ;;
      Some (RuBisCOParamsNp.vs p (Float64.Fin co2) (Float64.Fin o2)))
   /\ ArrheniusRubisco.net_vc m co2 o2 (Some t) =
     (p <- ArrheniusRubisco.concrete_temp m (Some t) ;;
      Some (RuBisCOParamsNp.net_vc p (Float64.Fin co2) (Float64.Fin o2))))
  /\ (ArrheniusRubisco.vs m co2 o2 None =
        (p <- ArrheniusRubisco.concrete_temp m
                (Some (ArrheniusRubisco.ref_temp m)) ;;
         Some (RuBisCOParamsNp.vs p (Float64.Fin co2) (Float64.Fin o2)))
      /\ ArrheniusRubisco.net_vc m co2 o2 None =
        (p <- ArrheniusRubisco.concrete_temp m
                (Some (ArrheniusRubisco.ref_temp m)) ;;
         Some (RuBisCOParamsNp.net_vc p (Float64.Fin co2) (Float64.Fin o2))))
  /\ (ArrheniusRubisco.vs m co2 o2 (Some 0) =
        (p <- ArrheniusRubisco.concrete_temp m
                (Some (ArrheniusRubisco.ref_temp m)) ;;
         Some (RuBisCOParamsNp.vs p (Float64.Fin co2) (Float64.Fin o2)))
      /\ ArrheniusRubisco.net_vc m co2 o2 (Some 0) =
        (p <- ArrheniusRubisco.concrete_temp m
                (Some (ArrheniusRubisco.ref_temp m)) ;;
         Some (RuBisCOParamsNp.net_vc p (Float64.Fin co2) (Float64.Fin o2)))).
Proof.
  intros Ht. unfold ArrheniusRubisco.vs, ArrheniusRubisco.net_vc.
  rewrite (py_or_truthy t _ Ht), py_or_omitted, py_or_zero.
  repeat split; reflexivity.
Qed.

Lemma vs_delegates_witness :
  ArrheniusRubisco.vs ATHALIANA_T 200 200 (Some 310) =
    (p <- ArrheniusRubisco.concrete_temp ATHALIANA_T (Some 310) ;;
     Some (RuBisCOParamsNp.vs p (Float64.Fin 200) (Float64.Fin 200)))
  /\ ArrheniusRubisco.vs ATHALIANA_T 200 200 (Some 0) =
    (p <- ArrheniusRubisco.concrete_temp ATHALIANA_T (Some 298.15) ;;
     Some (RuBisCOParamsNp.vs p (Float64.Fin 200) (Float64.Fin 200))).
Proof.
  destruct (vs_delegates ATHALIANA_T 200 200 310) as ((E & _) & _ & (Z & _));
    [lra |].
  split; [exact E |].
  rewrite Z. cbn [ArrheniusRubisco.ref_temp ATHALIANA_T ArrheniusRubisco.init].
  unfold _REF_T. rewrite (py_or_truthy 298.15) by lra. reflexivity.
Defined.

(** * Further properties of the code *)

(** ** Arrhenius parameters *)

(** X1: [ArrheniusParam.value] raises whenever the parameter's reference
    temperature is zero, whatever the temperature argument, and in exact
    arithmetic (no underflow of [_R * temp]) only then; a temperature
    argument of zero is treated as an omitted one. *)
Theorem value_fails_iff_ref_temp_zero (a : ArrheniusParam.t) (temp : option R) :
  (ArrheniusParam.value a temp = None <-> ArrheniusParam.ref_temp a = 0)
  /\ ArrheniusParam.value a (Some 0) = ArrheniusParam.value a None.
Proof.
  split.
  - split.
    + intros H.
      destruct (Req_dec_T (ArrheniusParam.ref_temp a) 0) as [E | N];
        [exact E | exfalso].
      assert (Hnz : py_or temp (ArrheniusParam.ref_temp a) <> 0).
      { unfold py_or. destruct temp as [t |]; [| exact N].
        destruct (Req_dec_T t 0); assumption. }
      unfold ArrheniusParam.value in H.
      rewrite div_defined in H
        by (apply Rmult_integral_contrapositive_currified;
            [exact _R_nonzero | exact Hnz]).
      cbn [bind] in H. rewrite (div_defined _ _ N) in H. discriminate H.
    + intros E. unfold ArrheniusParam.value. rewrite E.
      destruct (div (- ArrheniusParam.e_act a) (_R * py_or temp 0));
        cbn [bind]; [| reflexivity].
      rewrite div_by_zero. reflexivity.
  - unfold ArrheniusParam.value. rewrite py_or_zero, py_or_omitted. reflexivity.
Qed.

Lemma arrhenius_exponent (e T0 t : R) :
  T0 <> 0 -> t <> 0 ->
  - e / (_R * t) * (T0 - t) / T0 = e / _R * (1 / T0 - 1 / t).
Proof.
  intros H0 Ht. pose proof _R_nonzero. field. repeat split; assumption.
Qed.

Lemma value_truthy_arrhenius (a : ArrheniusParam.t) (t : R) :
  ArrheniusParam.ref_temp a <> 0 -> t <> 0 ->
  ArrheniusParam.value a (Some t) =
  Some (ArrheniusParam.ref_value a *
        exp (ArrheniusParam.e_act a / _R
             * (1 / ArrheniusParam.ref_temp a - 1 / t))).
Proof.
  intros H0 Ht. rewrite (value_truthy a t Ht H0).
  unfold scaledValue_formula. now rewrite arrhenius_exponent.
Qed.

(** X2: at a nonzero temperature [t], for a parameter with a nonzero
    reference temperature [T0], [value] is the Arrhenius law
    [ref_value * exp (e_act / R * (1/T0 - 1/t))]. *)
Theorem value_arrhenius_law (a : ArrheniusParam.t) (t : R) :
  ArrheniusParam.ref_temp a <> 0 -> t <> 0 ->
  ArrheniusParam.value a (Some t) =
  Some (ArrheniusParam.ref_value a *
        exp (ArrheniusParam.e_act a / _R
             * (1 / ArrheniusParam.ref_temp a - 1 / t))).
Proof. exact (value_truthy_arrhenius a t). Qed.

Lemma value_arrhenius_law_witness :
  ArrheniusParam.value (ArrheniusParam.init 36 298.15 63.0) (Some 310) =
  Some (36 * exp (63.0 / _R * (1 / 298.15 - 1 / 310))).
Proof.
  apply (value_arrhenius_law (ArrheniusParam.init 36 298.15 63.0) 310);
    cbn; lra.
Defined.

Lemma inverse_temperature_gap (T0 t t' : R) :
  0 < t -> t < t' -> 1 / T0 - 1 / t < 1 / T0 - 1 / t'.
Proof.
  intros Ht Hlt.
  pose proof (Rinv_0_lt_contravar t t' Ht Hlt). unfold Rdiv. lra.
Qed.

(** X3: for a parameter with a positive reference value and a nonzero
    reference temperature, [value] grows strictly with the temperature when
    the activation energy is positive and falls strictly when it is
    negative. *)
Theorem value_monotone (a : ArrheniusParam.t) (t t' : R) :
  ArrheniusParam.ref_temp a <> 0 ->
  0 < ArrheniusParam.ref_value a ->
  0 < t -> t < t' ->
  exists v v' : R,
    ArrheniusParam.value a (Some t) = Some v
    /\ ArrheniusParam.value a (Some t') = Some v'
    /\ (0 < ArrheniusParam.e_act a -> v < v')
    /\ (ArrheniusParam.e_act a < 0 -> v' < v).
Proof.
  intros H0 Hr Ht Hlt.
  assert (Nt : t <> 0) by lra. assert (Nt' : t' <> 0) by lra.
  do 2 eexists.
  split; [now apply value_truthy_arrhenius |].
  split; [now apply value_truthy_arrhenius |].
  pose proof (inverse_temperature_gap (ArrheniusParam.ref_temp a) t t' Ht Hlt) as G.
  assert (PR : 0 < / _R) by (apply Rinv_0_lt_compat; unfold _R; lra).
  split; intros He; apply Rmult_lt_compat_l; try exact Hr;
    apply exp_increasing; unfold Rdiv in *.
  - apply Rmult_lt_compat_l; [| exact G].
    now apply Rmult_lt_0_compat.
  - set (g := 1 * / ArrheniusParam.ref_temp a - 1 * / t) in *.
    set (g' := 1 * / ArrheniusParam.ref_temp a - 1 * / t') in *.
    assert (0 < - ArrheniusParam.e_act a * / _R)
      by (apply Rmult_lt_0_compat; lra).
    assert (- ArrheniusParam.e_act a * / _R * g
            < - ArrheniusParam.e_act a * / _R * g')
      by (now apply Rmult_lt_compat_l).
    lra.
Qed.

Lemma value_monotone_witness :
  exists v v' : R,
    ArrheniusParam.value (ArrheniusParam.init 36 298.15 63.0) (Some 290) = Some v
    /\ ArrheniusParam.value (ArrheniusParam.init 36 298.15 63.0) (Some 310) = Some v'
    /\ v < v'.
Proof.
  destruct (value_monotone (ArrheniusParam.init 36 298.15 63.0) 290 310)
    as (v & v' & E & E' & Hup & _); try (cbn; lra).
  exists v, v'. split; [exact E | split; [exact E' | apply Hup; cbn; lra]].
Defined.

(** ** Solubility *)

(** X4: for a gas with a positive reference coefficient and a positive
    temperature dependence, the solubility coefficient is positive and falls
    strictly as the temperature rises. *)
Theorem h_cp_decreasing (hl : HenrysLaw.t) (t t' : R) :
  0 < HenrysLaw._ref_h_cp hl -> 0 < HenrysLaw._t_dep hl ->
  HenrysLaw.ref_temp hl <> 0 ->
  0 < t -> t < t' ->
  exists h h' : R,
    HenrysLaw.h_cp hl (Some t) = Some h
    /\ HenrysLaw.h_cp hl (Some t') = Some h'
    /\ 0 < h' /\ h' < h.
Proof.
  intros Hr Hd H0 Ht Hlt.
  assert (Nt : t <> 0) by lra. assert (Nt' : t' <> 0) by lra.
  do 2 eexists.
  split; [now apply h_cp_truthy |]. split; [now apply h_cp_truthy |].
  unfold solubilityCoefficient_formula.
  split; [apply Rmult_lt_0_compat; [exact Hr | apply exp_pos] |].
  apply Rmult_lt_compat_l; [exact Hr |]. apply exp_increasing.
  apply Rmult_lt_compat_l; [exact Hd |].
  pose proof (Rinv_0_lt_contravar t t' Ht Hlt). unfold Rdiv. lra.
Qed.

Lemma h_cp_decreasing_witness :
  exists h h' : R,
    HenrysLaw.h_cp CO2_SOL (Some 280) = Some h
    /\ HenrysLaw.h_cp CO2_SOL (Some 310) = Some h'
    /\ 0 < h' /\ h' < h.
Proof.
  apply (h_cp_decreasing CO2_SOL 280 310); cbn; unfold _REF_T; lra.
Defined.

(** X5: the molar concentration is linear in the partial pressure: for a gas
    with a nonzero reference temperature, the concentration at pressure
    [a * p + b * q] is [a] times that at [p] plus [b] times that at [q], and
    it is zero at zero pressure. *)
Theorem molar_conc_linear (hl : HenrysLaw.t) (temp : option R) (a b p q : R) :
  HenrysLaw.ref_temp hl <> 0 ->
  exists x y : R,
    HenrysLaw.molar_conc hl p temp = Some x
    /\ HenrysLaw.molar_conc hl q temp = Some y
    /\ HenrysLaw.molar_conc hl (a * p + b * q) temp = Some (a * x + b * y)
    /\ HenrysLaw.molar_conc hl 0 temp = Some 0.
Proof.
  intros H0.
  destruct (HenrysLaw.h_cp hl temp) as [h |] eqn:E.
  - unfold HenrysLaw.molar_conc. rewrite E. cbn [bind].
    do 2 eexists. split; [reflexivity |]. split; [reflexivity |].
    split; f_equal; ring.
  - exfalso. apply H0. now apply (h_cp_None_iff hl temp).
Qed.

Lemma molar_conc_linear_witness :
  exists x y : R,
    HenrysLaw.molar_conc O2_SOL 21000 None = Some x
    /\ HenrysLaw.molar_conc O2_SOL 40 None = Some y
    /\ HenrysLaw.molar_conc O2_SOL (2 * 21000 + 3 * 40) None = Some (2 * x + 3 * y)
    /\ HenrysLaw.molar_conc O2_SOL 0 None = Some 0.
Proof.
  apply (molar_conc_linear O2_SOL None 2 3 21000 40). cbn. unfold _REF_T. lra.
Defined.

(** ** Fixed-parameter kinetics *)

(** X6: on built-in floats (a model constructed from them, as the literal
    constants are, and called with them), in exact arithmetic: [vs] raises
    exactly when a concentration, an affinity or one of the two denominators
    is zero, [net_vc] raises exactly when [vs] does, and the constructor
    raises exactly when [K_C] or [S] is zero. *)
Theorem rates_raise_iff (m : RuBisCOParams.t) (co2 o2 : R)
    (kc KC KO s : R) (nm : option string) (w : option R) :
  (RuBisCOParams.vs m co2 o2 = None <->
   (co2 = 0 \/ o2 = 0
    \/ RuBisCOParams.K_C m = 0 \/ RuBisCOParams.K_O m = 0
    \/ 1 + RuBisCOParams.K_C m / co2
         + RuBisCOParams.K_C m * o2 / (RuBisCOParams.K_O m * co2) = 0
    \/ 1 + RuBisCOParams.K_O m / o2
         + RuBisCOParams.K_O m * co2 / (RuBisCOParams.K_C m * o2) = 0))
  /\ (RuBisCOParams.net_vc m co2 o2 = None <-> RuBisCOParams.vs m co2 o2 = None)
  /\ (RuBisCOParams.init kc KC KO s nm w = None <-> (KC = 0 \/ s = 0)).
Proof.
  split; [apply vs_None_iff | split].
  - unfold RuBisCOParams.net_vc.
    destruct (RuBisCOParams.vs m co2 o2) as [[vc vo] |]; cbn [bind];
      split; intros H; try reflexivity; discriminate H.
  - unfold RuBisCOParams.init.
    destruct (div_cases (kc * KO) (KC * s)) as [[Z E] | [N E]]; rewrite E;
      cbn [bind]; split; intros H; try reflexivity.
    + now apply Rmult_integral.
    + discriminate H.
    + exfalso. apply N. destruct H as [-> | ->]; ring.
Qed.

Section PositiveRates.

Variable m : RuBisCOParams.t.
Variables co2 o2 : R.

Hypothesis K_C_pos : 0 < RuBisCOParams.K_C m.
Hypothesis K_O_pos : 0 < RuBisCOParams.K_O m.
Hypothesis co2_pos : 0 < co2.
Hypothesis o2_pos : 0 < o2.

Lemma carboxylation_denominator :
  1 < 1 + RuBisCOParams.K_C m / co2
        + RuBisCOParams.K_C m * o2 / (RuBisCOParams.K_O m * co2).
Proof.
  assert (0 < RuBisCOParams.K_C m / co2) by now apply Rdiv_lt_0_compat.
  assert (0 < RuBisCOParams.K_C m * o2 / (RuBisCOParams.K_O m * co2))
    by (apply Rdiv_lt_0_compat; now apply Rmult_lt_0_compat).
  lra.
Qed.

Lemma oxygenation_denominator :
  1 < 1 + RuBisCOParams.K_O m / o2
        + RuBisCOParams.K_O m * co2 / (RuBisCOParams.K_C m * o2).
Proof.
  assert (0 < RuBisCOParams.K_O m / o2) by now apply Rdiv_lt_0_compat.
  assert (0 < RuBisCOParams.K_O m * co2 / (RuBisCOParams.K_C m * o2))
    by (apply Rdiv_lt_0_compat; now apply Rmult_lt_0_compat).
  lra.
Qed.

Lemma vs_positive_defined :
  RuBisCOParams.vs m co2 o2 = Some (vc_formula m co2 o2, vo_formula m co2 o2).
Proof.
  pose proof carboxylation_denominator. pose proof oxygenation_denominator.
  apply vs_defined; lra.
Qed.

Lemma below_numerator (k d : R) : 0 < k -> 1 < d -> 0 < k / d < k.
Proof.
  intros Hk Hd. split; [apply Rdiv_lt_0_compat; lra |].
  apply (Rmult_lt_reg_r d); [lra |].
  unfold Rdiv. rewrite Rmult_assoc, Rinv_l by lra.
  rewrite Rmult_1_r. rewrite <- (Rmult_1_r k) at 1.
  now apply Rmult_lt_compat_l.
Qed.

Lemma rates_within_turnover :
  0 < RuBisCOParams.kcat_C m -> 0 < RuBisCOParams.kcat_O m ->
  exists vc vo : R,
    RuBisCOParams.vs m co2 o2 = Some (vc, vo)
    /\ 0 < vc < RuBisCOParams.kcat_C m
    /\ 0 < vo < RuBisCOParams.kcat_O m
    /\ RuBisCOParams.net_vc m co2 o2 = Some (vc - vo / 2)
    /\ vc - vo / 2 < RuBisCOParams.kcat_C m.
Proof.
  intros Hc Ho. do 2 eexists.
  split; [exact vs_positive_defined |].
  pose proof (below_numerator _ _ Hc carboxylation_denominator) as Bc.
  pose proof (below_numerator _ _ Ho oxygenation_denominator) as Bo.
  fold (vc_formula m co2 o2) in Bc. fold (vo_formula m co2 o2) in Bo.
  split; [exact Bc | split; [exact Bo | split]].
  - unfold RuBisCOParams.net_vc. rewrite vs_positive_defined. reflexivity.
  - lra.
Qed.

(** X7: at positive concentrations, for positive affinities and turnover
    numbers, both rates are positive and stay strictly below their turnover
    numbers, and the net rate stays strictly below [kcat_C]. *)
Theorem rates_bounded :
  0 < RuBisCOParams.kcat_C m -> 0 < RuBisCOParams.kcat_O m ->
  exists vc vo : R,
    RuBisCOParams.vs m co2 o2 = Some (vc, vo)
    /\ 0 < vc < RuBisCOParams.kcat_C m
    /\ 0 < vo < RuBisCOParams.kcat_O m
    /\ RuBisCOParams.net_vc m co2 o2 = Some (vc - vo / 2)
    /\ vc - vo / 2 < RuBisCOParams.kcat_C m.
Proof. exact rates_within_turnover. Qed.

Lemma vs_competitive_form :
  RuBisCOParams.vs m co2 o2 =
  Some (RuBisCOParams.kcat_C m * co2
          / (co2 + RuBisCOParams.K_C m * (1 + o2 / RuBisCOParams.K_O m)),
        RuBisCOParams.kcat_O m * o2
          / (o2 + RuBisCOParams.K_O m * (1 + co2 / RuBisCOParams.K_C m))).
Proof.
  rewrite vs_positive_defined. unfold vc_formula, vo_formula.
  assert (P : 0 < RuBisCOParams.K_O m * co2 + RuBisCOParams.K_C m * RuBisCOParams.K_O m
                  + RuBisCOParams.K_C m * o2).
  { pose proof (Rmult_lt_0_compat _ _ K_O_pos co2_pos).
    pose proof (Rmult_lt_0_compat _ _ K_C_pos K_O_pos).
    pose proof (Rmult_lt_0_compat _ _ K_C_pos o2_pos). lra. }
  f_equal. f_equal; field; repeat split; lra.
Qed.

(** X8: at positive concentrations and affinities the rates are those of
    competitive inhibition: [vc = kcat_C * co2 / (co2 + K_C * (1 + o2/K_O))]
    and [vo = kcat_O * o2 / (o2 + K_O * (1 + co2/K_C))]. *)
Theorem rates_competitive_inhibition :
  RuBisCOParams.vs m co2 o2 =
  Some (RuBisCOParams.kcat_C m * co2
          / (co2 + RuBisCOParams.K_C m * (1 + o2 / RuBisCOParams.K_O m)),
        RuBisCOParams.kcat_O m * o2
          / (o2 + RuBisCOParams.K_O m * (1 + co2 / RuBisCOParams.K_C m))).
Proof. exact vs_competitive_form. Qed.

End PositiveRates.

Lemma rates_bounded_witness :
  exists vc vo : R,
    RuBisCOParams.vs (RuBisCOParams.mk 3.7 14 480 80 (3.7 * 480 / (14 * 80)) None 65e3)
      10 250 = Some (vc, vo)
    /\ 0 < vc < 3.7
    /\ 0 < vo < 3.7 * 480 / (14 * 80).
Proof.
  destruct (rates_bounded
              (RuBisCOParams.mk 3.7 14 480 80 (3.7 * 480 / (14 * 80)) None 65e3)
              10 250) as (vc & vo & E & Bc & Bo & _); try (cbn; lra).
  exists vc, vo. split; [exact E | split; [exact Bc | exact Bo]].
Defined.

Lemma rates_competitive_inhibition_witness :
  RuBisCOParams.vs (RuBisCOParams.mk 3.7 14 480 80 (3.7 * 480 / (14 * 80)) None 65e3)
    10 250 =
  Some (3.7 * 10 / (10 + 14 * (1 + 250 / 480)),
        3.7 * 480 / (14 * 80) * 250 / (250 + 480 * (1 + 10 / 14))).
Proof.
  apply (rates_competitive_inhibition
           (RuBisCOParams.mk 3.7 14 480 80 (3.7 * 480 / (14 * 80)) None 65e3)
           10 250); cbn; lra.
Defined.

Section BuiltModel.

Variables kc KC KO s : R.
Variable nm : option string.
Variable w : option R.
Variable p : RuBisCOParams.t.

Hypothesis kc_pos : 0 < kc.
Hypothesis KC_pos : 0 < KC.
Hypothesis KO_pos : 0 < KO.
Hypothesis s_pos : 0 < s.
Hypothesis built : RuBisCOParams.init kc KC KO s nm w = Some p.

Lemma built_fields :
  p = RuBisCOParams.mk kc KC KO s (kc * KO / (KC * s)) nm (kwarg 65e3 w).
Proof.
  rewrite init_defined in built by lra. now injection built as <-.
Qed.

(** X9: for a model built from positive parameters, at positive
    concentrations, the two rates are in the ratio the specificity
    prescribes: [vc * o2 = S * co2 * vo], that is [vc / vo = S * co2 / o2]. *)
Theorem rates_ratio_is_specificity (co2 o2 : R) :
  0 < co2 -> 0 < o2 ->
  exists vc vo : R,
    RuBisCOParams.vs p co2 o2 = Some (vc, vo)
    /\ 0 < vo
    /\ vc / vo = RuBisCOParams.S p * co2 / o2.
Proof.
  intros Hc Ho. rewrite built_fields.
  set (b := RuBisCOParams.mk kc KC KO s (kc * KO / (KC * s)) nm (kwarg 65e3 w)).
  assert (Pq : 0 < kc * KO / (KC * s))
    by (apply Rdiv_lt_0_compat; now apply Rmult_lt_0_compat).
  destruct (rates_within_turnover b co2 o2 KC_pos KO_pos Hc Ho kc_pos Pq)
    as (vc & vo & E & _ & [Pvo _] & _).
  exists vc, vo. split; [exact E | split; [exact Pvo |]].
  rewrite (vs_competitive_form b co2 o2 KC_pos KO_pos Hc Ho) in E.
  injection E as <- <-. cbn.
  assert (P : 0 < KO * co2 + KC * KO + KC * o2).
  { pose proof (Rmult_lt_0_compat _ _ KO_pos Hc).
    pose proof (Rmult_lt_0_compat _ _ KC_pos KO_pos).
    pose proof (Rmult_lt_0_compat _ _ KC_pos Ho). lra. }
  field. repeat split; lra.
Qed.

(** X10: for a model built from positive parameters, at positive
    concentrations, the net rate is positive exactly when
    [o2 < 2 * S * co2], zero exactly at [o2 = 2 * S * co2] (the compensation
    point) and negative beyond it. *)
Theorem net_vc_compensation_point (co2 o2 : R) :
  0 < co2 -> 0 < o2 ->
  exists v : R,
    RuBisCOParams.net_vc p co2 o2 = Some v
    /\ (0 < v <-> o2 < 2 * s * co2)
    /\ (v = 0 <-> o2 = 2 * s * co2)
    /\ (v < 0 <-> 2 * s * co2 < o2).
Proof.
  intros Hc Ho. rewrite built_fields.
  rewrite net_vc_closed_form by assumption.
  eexists. split; [reflexivity |].
  pose proof (den_pos KC KO KC_pos KO_pos co2 o2 Hc Ho) as D.
  set (d := KO * co2 + KC * KO + KC * o2) in *.
  assert (Pf : 0 < kc * KO / (2 * s * d)).
  { apply Rdiv_lt_0_compat; [now apply Rmult_lt_0_compat |].
    apply Rmult_lt_0_compat; [lra | exact D]. }
  replace (kc * KO * (2 * s * co2 - o2) / (2 * s * d))
    with (kc * KO / (2 * s * d) * (2 * s * co2 - o2))
    by (field; split; lra).
  set (f := kc * KO / (2 * s * d)) in *.
  set (g := 2 * s * co2 - o2).
  assert (G : (0 < g <-> o2 < 2 * s * co2) /\ (g = 0 <-> o2 = 2 * s * co2)
              /\ (g < 0 <-> 2 * s * co2 < o2))
    by (subst g; repeat split; intros; lra).
  destruct G as (G1 & G2 & G3).
  rewrite <- G1, <- G2, <- G3.
  repeat split; intros H.
  - destruct (Rlt_or_le 0 g) as [L | L]; [exact L | exfalso].
    assert (f * g <= f * 0) by (apply Rmult_le_compat_l; lra). lra.
  - now apply Rmult_lt_0_compat.
  - apply Rmult_integral in H. destruct H; [lra | assumption].
  - rewrite H. ring.
  - destruct (Rlt_or_le g 0) as [L | L]; [exact L | exfalso].
    assert (f * 0 <= f * g) by (apply Rmult_le_compat_l; lra). lra.
  - assert (f * g < f * 0) by (apply Rmult_lt_compat_l; lra). lra.
Qed.

(** X11: the rates do not depend on the unit of concentration: scaling both
    affinities and both concentrations by the same positive factor leaves
    [kcat_O], the two rates and the net rate unchanged. *)
Theorem rates_unit_invariant (c co2 o2 : R) :
  0 < c -> 0 < co2 -> 0 < o2 ->
  exists q : RuBisCOParams.t,
    RuBisCOParams.init kc (c * KC) (c * KO) s nm w = Some q
    /\ RuBisCOParams.kcat_O q = RuBisCOParams.kcat_O p
    /\ RuBisCOParams.vs q (c * co2) (c * o2) = RuBisCOParams.vs p co2 o2
    /\ RuBisCOParams.net_vc q (c * co2) (c * o2) = RuBisCOParams.net_vc p co2 o2.
Proof.
  intros Pc Hc Ho. rewrite built_fields.
  assert (PcKC : 0 < c * KC) by now apply Rmult_lt_0_compat.
  assert (PcKO : 0 < c * KO) by now apply Rmult_lt_0_compat.
  assert (Pcc : 0 < c * co2) by now apply Rmult_lt_0_compat.
  assert (Pco : 0 < c * o2) by now apply Rmult_lt_0_compat.
  eexists. split; [apply init_defined; lra |].
  assert (Q : kc * (c * KO) / (c * KC * s) = kc * KO / (KC * s))
    by (field; repeat split; lra).
  assert (V : RuBisCOParams.vs
                (RuBisCOParams.mk kc (c * KC) (c * KO) s
                   (kc * (c * KO) / (c * KC * s)) nm (kwarg 65e3 w))
                (c * co2) (c * o2)
              = RuBisCOParams.vs
                  (RuBisCOParams.mk kc KC KO s (kc * KO / (KC * s)) nm
                     (kwarg 65e3 w)) co2 o2).
  { rewrite !vs_competitive_form by (cbn; assumption). cbn.
    rewrite Q. f_equal.
    assert (P : 0 < KO * co2 + KC * KO + KC * o2).
    { pose proof (Rmult_lt_0_compat _ _ KO_pos Hc).
      pose proof (Rmult_lt_0_compat _ _ KC_pos KO_pos).
      pose proof (Rmult_lt_0_compat _ _ KC_pos Ho). lra. }
    pose proof (Rmult_lt_0_compat _ _ Pc P) as P'.
    f_equal; field; repeat split; try lra; apply Rgt_not_eq;
      match goal with
      | |- ?e > 0 =>
          replace e with (c * (KO * co2 + KC * KO + KC * o2)) by ring
      end; exact P'. }
  split; [exact Q | split; [exact V |]].
  unfold RuBisCOParams.net_vc. rewrite V. reflexivity.
Qed.

End BuiltModel.

Lemma rates_ratio_is_specificity_witness :
  exists p : RuBisCOParams.t,
    SPINACH = Some p
    /\ exists vc vo : R,
         RuBisCOParams.vs p 10 250 = Some (vc, vo)
         /\ 0 < vo
         /\ vc / vo = RuBisCOParams.S p * 10 / 250.
Proof.
  assert (N14 : 14 <> 0) by lra. assert (N80 : 80 <> 0) by lra.
  pose proof (init_defined 3.7 14 480 80 (Some "Spinach"%string) None N14 N80) as B.
  eexists. split; [exact B |].
  apply (rates_ratio_is_specificity 3.7 14 480 80 (Some "Spinach"%string) None);
    try lra; exact B.
Defined.

Lemma net_vc_compensation_point_witness :
  exists p : RuBisCOParams.t,
    SPINACH = Some p
    /\ exists v : R,
         RuBisCOParams.net_vc p 10 250 = Some v
         /\ (0 < v <-> 250 < 2 * 80 * 10)
         /\ (v = 0 <-> 250 = 2 * 80 * 10)
         /\ (v < 0 <-> 2 * 80 * 10 < 250).
Proof.
  assert (N14 : 14 <> 0) by lra. assert (N80 : 80 <> 0) by lra.
  pose proof (init_defined 3.7 14 480 80 (Some "Spinach"%string) None N14 N80) as B.
  eexists. split; [exact B |].
  apply (net_vc_compensation_point 3.7 14 480 80 (Some "Spinach"%string) None);
    try lra; exact B.
Defined.

Lemma rates_unit_invariant_witness :
  exists p q : RuBisCOParams.t,
    SPINACH = Some p
    /\ RuBisCOParams.init 3.7 (1e-6 * 14) (1e-6 * 480) 80
         (Some "Spinach"%string) None = Some q
    /\ RuBisCOParams.kcat_O q = RuBisCOParams.kcat_O p
    /\ RuBisCOParams.vs q (1e-6 * 10) (1e-6 * 250) = RuBisCOParams.vs p 10 250
    /\ RuBisCOParams.net_vc q (1e-6 * 10) (1e-6 * 250)
       = RuBisCOParams.net_vc p 10 250.
Proof.
  assert (N14 : 14 <> 0) by lra. assert (N80 : 80 <> 0) by lra.
  pose proof (init_defined 3.7 14 480 80 (Some "Spinach"%string) None N14 N80) as B.
  assert (P14 : 0 < 14) by lra. assert (P480 : 0 < 480) by lra.
  assert (P80 : 0 < 80) by lra.
  destruct (rates_unit_invariant 3.7 14 480 80 _ _ _ P14 P480 P80 B 1e-6 10 250)
    as (q & Hq); try lra.
  eexists. exists q. split; [exact B | exact Hq].
Defined.

(** ** Temperature-dependent kinetics *)

(** X12: a constructed temperature-dependent model never has a zero
    reference temperature: an omitted or zero [ref_temp] argument becomes
    298.15 and any other argument is stored as it is; hence [vs] and
    [net_vc] without a temperature are [vs] and [net_vc] at the model's
    reference temperature. *)
Theorem ref_temp_never_zero (a b c d : ArrheniusParam.t) (rt : option R)
    (nm : option string) (w : option R) (co2 o2 : R) :
  ArrheniusRubisco.ref_temp (ArrheniusRubisco.init a b c d rt nm w) <> 0
  /\ ArrheniusRubisco.ref_temp (ArrheniusRubisco.init a b c d None nm w) = 298.15
  /\ ArrheniusRubisco.ref_temp (ArrheniusRubisco.init a b c d (Some 0) nm w) = 298.15
  /\ ArrheniusRubisco.vs (ArrheniusRubisco.init a b c d rt nm w) co2 o2 None =
     ArrheniusRubisco.vs (ArrheniusRubisco.init a b c d rt nm w) co2 o2
       (Some (ArrheniusRubisco.ref_temp (ArrheniusRubisco.init a b c d rt nm w)))
  /\ ArrheniusRubisco.net_vc (ArrheniusRubisco.init a b c d rt nm w) co2 o2 None =
     ArrheniusRubisco.net_vc (ArrheniusRubisco.init a b c d rt nm w) co2 o2
       (Some (ArrheniusRubisco.ref_temp (ArrheniusRubisco.init a b c d rt nm w))).
Proof.
  assert (N : ArrheniusRubisco.ref_temp (ArrheniusRubisco.init a b c d rt nm w) <> 0).
  { cbn. unfold py_or. destruct rt as [t |]; [| lra].
    destruct (Req_dec_T t 0); [lra | assumption]. }
  split; [exact N |]. split; [reflexivity |].
  split; [cbn; apply py_or_zero |].
  unfold ArrheniusRubisco.vs, ArrheniusRubisco.net_vc.
  rewrite py_or_omitted, (py_or_truthy _ _ N). split; reflexivity.
Qed.

Section ConvertedModel.

Variable m : ArrheniusRubisco.t.

Hypothesis kcat_C_ref_temp : ArrheniusParam.ref_temp (ArrheniusRubisco.kcat_C m) <> 0.
Hypothesis K_C_ref_temp : ArrheniusParam.ref_temp (ArrheniusRubisco.K_C m) <> 0.
Hypothesis K_O_ref_temp : ArrheniusParam.ref_temp (ArrheniusRubisco.K_O m) <> 0.
Hypothesis S_ref_temp : ArrheniusParam.ref_temp (ArrheniusRubisco.S m) <> 0.

(** X13: the conversion from partial-pressure to molar units leaves the
    oxygenation turnover number untouched: at a nonzero temperature, for
    nonzero [K_C] and [S] reference values, the [kcat_O] of the converted
    model is [kcat_C * K_O / (K_C * S)] of the unconverted parameter
    values, free of both solubility coefficients. *)
Theorem conversion_keeps_kcat_O (t : R) :
  t <> 0 ->
  ArrheniusParam.ref_value (ArrheniusRubisco.K_C m) <> 0 ->
  ArrheniusParam.ref_value (ArrheniusRubisco.S m) <> 0 ->
  exists (p : RuBisCOParamsNp.t) (kc KC KO s : R),
    ArrheniusRubisco.concrete_temp m (Some t) = Some p
    /\ ArrheniusParam.value (ArrheniusRubisco.kcat_C m) (Some t) = Some kc
    /\ ArrheniusParam.value (ArrheniusRubisco.K_C m) (Some t) = Some KC
    /\ ArrheniusParam.value (ArrheniusRubisco.K_O m) (Some t) = Some KO
    /\ ArrheniusParam.value (ArrheniusRubisco.S m) (Some t) = Some s
    /\ Float64.real (RuBisCOParamsNp.kcat_O p) = Some (kc * KO / (KC * s)).
Proof.
  intros Nt NKC Ns.
  destruct (gas_constants_defined t Nt) as (HO & HC & NO & NC).
  pose proof (value_truthy (ArrheniusRubisco.kcat_C m) t Nt kcat_C_ref_temp) as V1.
  pose proof (value_truthy (ArrheniusRubisco.K_C m) t Nt K_C_ref_temp) as V2.
  pose proof (value_truthy (ArrheniusRubisco.K_O m) t Nt K_O_ref_temp) as V3.
  pose proof (value_truthy (ArrheniusRubisco.S m) t Nt S_ref_temp) as V4.
  assert (NKC' : scaledValue_formula (ArrheniusRubisco.K_C m) t <> 0)
    by (intros E; apply NKC; now apply (scaledValue_positive_factor _ t)).
  assert (Ns' : scaledValue_formula (ArrheniusRubisco.S m) t <> 0)
    by (intros E; apply Ns; now apply (scaledValue_positive_factor _ t)).
  eexists. do 4 eexists.
  split; [exact (concrete_temp_from_values m (Some t) _ _ _ _ _ _
                   V1 V2 V3 V4 HO HC) |].
  split; [exact V1 | split; [exact V2 | split; [exact V3 | split; [exact V4 |]]]].
  now apply converted_kcat_O.
Qed.

Lemma concrete_temp_reference_state (temp : option R) :
  temp = Some 0 \/ temp = None ->
  ArrheniusRubisco.concrete_temp m temp =
  Some (RuBisCOParamsNp.init
          (Float64.Fin (ArrheniusParam.ref_value (ArrheniusRubisco.kcat_C m)))
          (Float64.Fin
             (1e-3 * (ArrheniusParam.ref_value (ArrheniusRubisco.K_C m) * 3.3e-4) * 1e6))
          (Float64.Fin
             (1e-3 * (ArrheniusParam.ref_value (ArrheniusRubisco.K_O m) * 1.2e-5) * 1e6))
          (Float64.mul
             (Float64.Fin (ArrheniusParam.ref_value (ArrheniusRubisco.S m)))
             (Float64.div (Float64.Fin 1.2e-5) (Float64.Fin 3.3e-4)))
          (ArrheniusRubisco.name m) (Some (ArrheniusRubisco.mw m))).
Proof.
  intros Htemp.
  assert (NT : _REF_T <> 0) by (unfold _REF_T; lra).
  assert (G : forall d : R, py_or temp d = d)
    by (intros d; destruct Htemp as [-> | ->];
        [apply py_or_zero | apply py_or_omitted]).
  apply concrete_temp_from_values.
  - apply value_falsy; [apply G | assumption].
  - apply value_falsy; [apply G | assumption].
  - apply value_falsy; [apply G | assumption].
  - apply value_falsy; [apply G | assumption].
  - exact (h_cp_falsy O2_SOL temp (G _) NT).
  - exact (h_cp_falsy CO2_SOL temp (G _) NT).
Qed.

(** X14: a temperature argument of zero, like an omitted one, makes
    [concrete_temp] evaluate every parameter and both solubilities at their
    own reference temperatures: the result is the reference-state model,
    with [kcat_C] the reference value, [K_C] and [K_O] the reference values
    converted with the reference coefficients 3.3e-4 and 1.2e-5, and [S]
    the reference value times their ratio. *)
Theorem concrete_temp_falsy_temperature :
  exists p : RuBisCOParamsNp.t,
    ArrheniusRubisco.concrete_temp m (Some 0) = Some p
    /\ ArrheniusRubisco.concrete_temp m None = Some p
    /\ RuBisCOParamsNp.kcat_C p =
       Float64.Fin (ArrheniusParam.ref_value (ArrheniusRubisco.kcat_C m))
    /\ RuBisCOParamsNp.K_C p =
       Float64.Fin
         (1e-3 * (ArrheniusParam.ref_value (ArrheniusRubisco.K_C m) * 3.3e-4) * 1e6)
    /\ RuBisCOParamsNp.K_O p =
       Float64.Fin
         (1e-3 * (ArrheniusParam.ref_value (ArrheniusRubisco.K_O m) * 1.2e-5) * 1e6)
    /\ Float64.real (RuBisCOParamsNp.S p) =
       Some (ArrheniusParam.ref_value (ArrheniusRubisco.S m) * (1.2e-5 / 3.3e-4)).
Proof.
  eexists.
  split; [apply concrete_temp_reference_state; now left |].
  split; [apply concrete_temp_reference_state; now right |].
  cbn [RuBisCOParamsNp.init RuBisCOParamsNp.kcat_C RuBisCOParamsNp.K_C
       RuBisCOParamsNp.K_O RuBisCOParamsNp.S].
  repeat split.
  apply real_mul; [reflexivity |]. apply real_div; try reflexivity. lra.
Qed.

(** X15: the converted model carries the name and the mass per active site
    of the temperature-dependent model: the constructor's default of 65e3
    is never applied by [concrete_temp]. *)
Theorem conversion_keeps_name_and_mw (temp : option R) (p : RuBisCOParamsNp.t) :
  ArrheniusRubisco.concrete_temp m temp = Some p ->
  RuBisCOParamsNp.name p = ArrheniusRubisco.name m
  /\ RuBisCOParamsNp.mw p = ArrheniusRubisco.mw m.
Proof.
  unfold ArrheniusRubisco.concrete_temp.
  repeat match goal with
         | |- context [bind ?x _] =>
             match x with
             | context [bind] => fail 1
             | _ => destruct x; cbn [bind]; [| discriminate]
             end
         end.
  intros H. injection H as <-. split; reflexivity.
Qed.

(** X20: [concrete_temp] does not raise in the constructor: at a nonzero
    temperature it returns a model whatever the reference values are, and
    the [kcat_O] of that model is an infinity or nan exactly when the [K_C]
    or the [S] reference value is zero. *)
Theorem converted_kcat_O_not_finite_iff (t : R) :
  t <> 0 ->
  exists p : RuBisCOParamsNp.t,
    ArrheniusRubisco.concrete_temp m (Some t) = Some p
    /\ (Float64.real (RuBisCOParamsNp.kcat_O p) = None <->
        (ArrheniusParam.ref_value (ArrheniusRubisco.K_C m) = 0
         \/ ArrheniusParam.ref_value (ArrheniusRubisco.S m) = 0)).
Proof.
  intros Nt.
  destruct (gas_constants_defined t Nt) as (HO & HC & NO & NC).
  pose proof (value_truthy (ArrheniusRubisco.kcat_C m) t Nt kcat_C_ref_temp) as V1.
  pose proof (value_truthy (ArrheniusRubisco.K_C m) t Nt K_C_ref_temp) as V2.
  pose proof (value_truthy (ArrheniusRubisco.K_O m) t Nt K_O_ref_temp) as V3.
  pose proof (value_truthy (ArrheniusRubisco.S m) t Nt S_ref_temp) as V4.
  pose proof (scaledValue_positive_factor (ArrheniusRubisco.K_C m) t) as ZK.
  pose proof (scaledValue_positive_factor (ArrheniusRubisco.S m) t) as ZS.
  eexists.
  split; [exact (concrete_temp_from_values m (Some t) _ _ _ _ _ _
                   V1 V2 V3 V4 HO HC) |].
  set (kc := scaledValue_formula (ArrheniusRubisco.kcat_C m) t) in *.
  set (KC := scaledValue_formula (ArrheniusRubisco.K_C m) t) in *.
  set (KO := scaledValue_formula (ArrheniusRubisco.K_O m) t) in *.
  set (s := scaledValue_formula (ArrheniusRubisco.S m) t) in *.
  set (h_o := solubilityCoefficient_formula O2_SOL t) in *.
  set (h_c := solubilityCoefficient_formula CO2_SOL t) in *.
  split.
  - intros H.
    destruct (Req_dec_T KC 0) as [E | NKC]; [left; now apply ZK |].
    destruct (Req_dec_T s 0) as [E | Ns]; [right; now apply ZS |].
    rewrite converted_kcat_O in H by assumption.
    discriminate H.
  - intros H.
    cbn [RuBisCOParamsNp.init RuBisCOParamsNp.kcat_O].
    apply (real_div_by_zero _ _ (kc * (1e-3 * (KO * h_o) * 1e6))).
    + now apply real_mul.
    + replace 0 with (1e-3 * (KC * h_c) * 1e6 * (s * (h_o / h_c))).
      * apply real_mul; [reflexivity |].
        apply real_mul; [reflexivity |]. now apply real_div.
      * destruct H as [H | H];
          [apply ZK in H; rewrite H | apply ZS in H; rewrite H]; ring.
Qed.

End ConvertedModel.

Lemma conversion_keeps_kcat_O_witness :
  exists (p : RuBisCOParamsNp.t) (kc KC KO s : R),
    ArrheniusRubisco.concrete_temp ATHALIANA_T (Some 310) = Some p
    /\ ArrheniusParam.value (ArrheniusRubisco.kcat_C ATHALIANA_T) (Some 310) = Some kc
    /\ ArrheniusParam.value (ArrheniusRubisco.K_C ATHALIANA_T) (Some 310) = Some KC
    /\ ArrheniusParam.value (ArrheniusRubisco.K_O ATHALIANA_T) (Some 310) = Some KO
    /\ ArrheniusParam.value (ArrheniusRubisco.S ATHALIANA_T) (Some 310) = Some s
    /\ Float64.real (RuBisCOParamsNp.kcat_O p) = Some (kc * KO / (KC * s)).
Proof.
  apply (conversion_keeps_kcat_O ATHALIANA_T); cbn; unfold _REF_T; lra.
Defined.

Lemma concrete_temp_falsy_temperature_witness :
  exists p : RuBisCOParamsNp.t,
    ArrheniusRubisco.concrete_temp ATHALIANA_T (Some 0) = Some p
    /\ ArrheniusRubisco.concrete_temp ATHALIANA_T None = Some p
    /\ RuBisCOParamsNp.kcat_C p = Float64.Fin 3.1
    /\ RuBisCOParamsNp.K_C p = Float64.Fin (1e-3 * (36 * 3.3e-4) * 1e6)
    /\ RuBisCOParamsNp.K_O p = Float64.Fin (1e-3 * (23100 * 1.2e-5) * 1e6)
    /\ Float64.real (RuBisCOParamsNp.S p) = Some (2003 * (1.2e-5 / 3.3e-4)).
Proof.
  apply (concrete_temp_falsy_temperature ATHALIANA_T); cbn; unfold _REF_T; lra.
Defined.

Lemma conversion_keeps_name_and_mw_witness :
  exists p : RuBisCOParamsNp.t,
    ArrheniusRubisco.concrete_temp ATHALIANA_T None = Some p
    /\ RuBisCOParamsNp.name p = Some "A. thaliana"%string
    /\ RuBisCOParamsNp.mw p = 65e3.
Proof.
  eexists. split.
  - apply (concrete_temp_reference_state ATHALIANA_T);
      try (cbn; unfold _REF_T; lra). now right.
  - apply (conversion_keeps_name_and_mw ATHALIANA_T None).
    apply (concrete_temp_reference_state ATHALIANA_T);
      try (cbn; unfold _REF_T; lra). now right.
Defined.

Lemma converted_kcat_O_not_finite_iff_witness :
  exists p : RuBisCOParamsNp.t,
    ArrheniusRubisco.concrete_temp
      (ArrheniusRubisco.init
         (ArrheniusParam.init 3.1 298.15 59.6)
         (ArrheniusParam.init 36 298.15 63.0)
         (ArrheniusParam.init 23100 298.15 16.9)
         (ArrheniusParam.init 0 298.15 (-28.7))
         None None None) (Some 310) = Some p
    /\ Float64.real (RuBisCOParamsNp.kcat_O p) = None.
Proof.
  destruct (converted_kcat_O_not_finite_iff
              (ArrheniusRubisco.init
                 (ArrheniusParam.init 3.1 298.15 59.6)
                 (ArrheniusParam.init 36 298.15 63.0)
                 (ArrheniusParam.init 23100 298.15 16.9)
                 (ArrheniusParam.init 0 298.15 (-28.7))
                 None None None)) with (t := 310) as (p & E & H);
    try (cbn; lra).
  exists p. split; [exact E |]. apply H. right. reflexivity.
Defined.

(** X16: for a temperature-dependent model, whatever the temperature
    argument, [net_vc] is [vc - vo/2] of the pair [vs] returns at the same
    arguments, and raises exactly when [vs] does. *)
Theorem net_vc_of_vs (m : ArrheniusRubisco.t) (co2 o2 : R) (temp : option R) :
  ArrheniusRubisco.net_vc m co2 o2 temp =
    (v <- ArrheniusRubisco.vs m co2 o2 temp ;;
     Some (Float64.sub (fst v) (Float64.div (snd v) (Float64.Fin 2))))
  /\ (ArrheniusRubisco.net_vc m co2 o2 temp = None <->
      ArrheniusRubisco.vs m co2 o2 temp = None).
Proof.
  unfold ArrheniusRubisco.net_vc, ArrheniusRubisco.vs.
  destruct (ArrheniusRubisco.concrete_temp m
              (Some (py_or temp (ArrheniusRubisco.ref_temp m)))) as [p |];
    cbn [bind]; [| split; [reflexivity | tauto]].
  unfold RuBisCOParamsNp.net_vc.
  destruct (RuBisCOParamsNp.vs p (Float64.Fin co2) (Float64.Fin o2))
    as [vc vo]; cbn [fst snd].
  split; [reflexivity |]. split; intros H; discriminate H.
Qed.

(** ** The two kinds of operand agree *)

Section Agreement.

Variable p : RuBisCOParamsNp.t.
Variable q : RuBisCOParams.t.

Hypothesis same_kcat_C :
  Float64.real (RuBisCOParamsNp.kcat_C p) = Some (RuBisCOParams.kcat_C q).
Hypothesis same_K_C :
  Float64.real (RuBisCOParamsNp.K_C p) = Some (RuBisCOParams.K_C q).
Hypothesis same_K_O :
  Float64.real (RuBisCOParamsNp.K_O p) = Some (RuBisCOParams.K_O q).
Hypothesis same_kcat_O :
  Float64.real (RuBisCOParamsNp.kcat_O p) = Some (RuBisCOParams.kcat_O q).

Variables co2 o2 vc vo : R.

Hypothesis returns : RuBisCOParams.vs q co2 o2 = Some (vc, vo).

Lemma vs_agrees :
  Float64.real (fst (RuBisCOParamsNp.vs p (Float64.Fin co2) (Float64.Fin o2)))
    = Some vc
  /\ Float64.real (snd (RuBisCOParamsNp.vs p (Float64.Fin co2) (Float64.Fin o2)))
     = Some vo.
Proof.
  assert (N : ~ (co2 = 0 \/ o2 = 0
                 \/ RuBisCOParams.K_C q = 0 \/ RuBisCOParams.K_O q = 0
                 \/ 1 + RuBisCOParams.K_C q / co2
                      + RuBisCOParams.K_C q * o2 / (RuBisCOParams.K_O q * co2) = 0
                 \/ 1 + RuBisCOParams.K_O q / o2
                      + RuBisCOParams.K_O q * co2 / (RuBisCOParams.K_C q * o2) = 0)).
  { intros H. apply vs_None_iff in H. rewrite H in returns. discriminate returns. }
  assert (Hc : co2 <> 0) by tauto. assert (Ho : o2 <> 0) by tauto.
  assert (HKC : RuBisCOParams.K_C q <> 0) by tauto.
  assert (HKO : RuBisCOParams.K_O q <> 0) by tauto.
  assert (Dc : 1 + RuBisCOParams.K_C q / co2
               + RuBisCOParams.K_C q * o2 / (RuBisCOParams.K_O q * co2) <> 0)
    by tauto.
  assert (Do : 1 + RuBisCOParams.K_O q / o2
               + RuBisCOParams.K_O q * co2 / (RuBisCOParams.K_C q * o2) <> 0)
    by tauto.
  rewrite (vs_defined q co2 o2 Hc Ho HKC HKO Dc Do) in returns.
  injection returns as <- <-.
  unfold RuBisCOParamsNp.vs, vc_formula, vo_formula. cbn [fst snd].
  rewrite <- one_point_zero in Dc, Do. rewrite <- one_point_zero.
  split.
  - apply real_div; [exact same_kcat_C | | exact Dc].
    apply real_add; [apply real_add; [reflexivity |] |].
    + now apply real_div.
    + apply real_div.
      * now apply real_mul.
      * now apply real_mul.
      * now apply Rmult_integral_contrapositive_currified.
  - apply real_div; [exact same_kcat_O | | exact Do].
    apply real_add; [apply real_add; [reflexivity |] |].
    + now apply real_div.
    + apply real_div.
      * now apply real_mul.
      * now apply real_mul.
      * now apply Rmult_integral_contrapositive_currified.
Qed.

Lemma net_vc_agrees :
  Float64.real (RuBisCOParamsNp.net_vc p (Float64.Fin co2) (Float64.Fin o2))
  = Some (vc - vo / 2).
Proof.
  destruct vs_agrees as [Ec Eo]. unfold RuBisCOParamsNp.net_vc.
  destruct (RuBisCOParamsNp.vs p (Float64.Fin co2) (Float64.Fin o2))
    as [x y]. cbn [fst snd] in Ec, Eo.
  apply real_sub; [exact Ec |]. apply real_div; [exact Eo | reflexivity | lra].
Qed.

(** X18: the rates do not depend on the kind of operand: whenever [vs] on
    built-in floats returns [(vc, vo)], [vs] on a [numpy.float64] model with
    the same field values returns finite rates denoting the same two
    numbers, and [net_vc] returns their [vc - vo/2]. *)
Theorem rates_same_on_numpy_operands :
  Float64.real (fst (RuBisCOParamsNp.vs p (Float64.Fin co2) (Float64.Fin o2)))
    = Some vc
  /\ Float64.real (snd (RuBisCOParamsNp.vs p (Float64.Fin co2) (Float64.Fin o2)))
     = Some vo
  /\ Float64.real (RuBisCOParamsNp.net_vc p (Float64.Fin co2) (Float64.Fin o2))
     = Some (vc - vo / 2).
Proof.
  destruct vs_agrees as [Ec Eo]. split; [exact Ec | split; [exact Eo |]].
  exact net_vc_agrees.
Qed.

End Agreement.

Lemma rates_same_on_numpy_operands_witness :
  Float64.real
    (fst (RuBisCOParamsNp.vs
            (RuBisCOParamsNp.init (Float64.Fin 3.7) (Float64.Fin 14)
               (Float64.Fin 480) (Float64.Fin 80) None None)
            (Float64.Fin 10) (Float64.Fin 250)))
  = Some (vc_formula
            (RuBisCOParams.mk 3.7 14 480 80 (3.7 * 480 / (14 * 80)) None 65e3)
            10 250).
Proof.
  assert (K : Float64.real
                (RuBisCOParamsNp.kcat_O
                   (RuBisCOParamsNp.init (Float64.Fin 3.7) (Float64.Fin 14)
                      (Float64.Fin 480) (Float64.Fin 80) None None))
              = Some (3.7 * 480 / (14 * 80))).
  { cbn [RuBisCOParamsNp.init RuBisCOParamsNp.kcat_O].
    apply real_div; [now apply real_mul | now apply real_mul | lra]. }
  apply (rates_same_on_numpy_operands
           (RuBisCOParamsNp.init (Float64.Fin 3.7) (Float64.Fin 14)
              (Float64.Fin 480) (Float64.Fin 80) None None)
           (RuBisCOParams.mk 3.7 14 480 80 (3.7 * 480 / (14 * 80)) None 65e3)
           (eq_refl _) (eq_refl _) (eq_refl _) K 10 250 _
           (vo_formula
              (RuBisCOParams.mk 3.7 14 480 80 (3.7 * 480 / (14 * 80)) None 65e3)
              10 250)).
  apply vs_positive_defined; cbn; lra.
Defined.

Section ConvertedRates.

Variable m : ArrheniusRubisco.t.
Variable t : R.

Hypothesis t_nonzero : t <> 0.
Hypothesis kcat_C_ref_temp : ArrheniusParam.ref_temp (ArrheniusRubisco.kcat_C m) <> 0.
Hypothesis K_C_ref_temp : ArrheniusParam.ref_temp (ArrheniusRubisco.K_C m) <> 0.
Hypothesis K_O_ref_temp : ArrheniusParam.ref_temp (ArrheniusRubisco.K_O m) <> 0.
Hypothesis S_ref_temp : ArrheniusParam.ref_temp (ArrheniusRubisco.S m) <> 0.
Hypothesis kcat_C_pos : 0 < ArrheniusParam.ref_value (ArrheniusRubisco.kcat_C m).
Hypothesis K_C_pos : 0 < ArrheniusParam.ref_value (ArrheniusRubisco.K_C m).
Hypothesis K_O_pos : 0 < ArrheniusParam.ref_value (ArrheniusRubisco.K_O m).
Hypothesis S_pos : 0 < ArrheniusParam.ref_value (ArrheniusRubisco.S m).

Let kc := scaledValue_formula (ArrheniusRubisco.kcat_C m) t.
Let KC := scaledValue_formula (ArrheniusRubisco.K_C m) t.
Let KO := scaledValue_formula (ArrheniusRubisco.K_O m) t.
Let s := scaledValue_formula (ArrheniusRubisco.S m) t.
Let h_o := solubilityCoefficient_formula O2_SOL t.
Let h_c := solubilityCoefficient_formula CO2_SOL t.

(** The converted model and the real numbers its fields denote. *)
Let p : RuBisCOParamsNp.t :=
  RuBisCOParamsNp.init (Float64.Fin kc)
    (Float64.Fin (1e-3 * (KC * h_c) * 1e6))
    (Float64.Fin (1e-3 * (KO * h_o) * 1e6))
    (Float64.mul (Float64.Fin s)
       (Float64.div (Float64.Fin h_o) (Float64.Fin h_c)))
    (ArrheniusRubisco.name m) (Some (ArrheniusRubisco.mw m)).

Let q : RuBisCOParams.t :=
  RuBisCOParams.mk kc (1e-3 * (KC * h_c) * 1e6) (1e-3 * (KO * h_o) * 1e6)
    (s * (h_o / h_c)) (kc * KO / (KC * s))
    (ArrheniusRubisco.name m) (ArrheniusRubisco.mw m).

Lemma scaled_positive (a : ArrheniusParam.t) :
  0 < ArrheniusParam.ref_value a -> 0 < scaledValue_formula a t.
Proof.
  intros Pa. unfold scaledValue_formula.
  apply Rmult_lt_0_compat; [exact Pa | apply exp_pos].
Qed.

Lemma solubility_positive (hl : HenrysLaw.t) :
  0 < HenrysLaw._ref_h_cp hl -> 0 < solubilityCoefficient_formula hl t.
Proof.
  intros Ph. unfold solubilityCoefficient_formula.
  apply Rmult_lt_0_compat; [exact Ph | apply exp_pos].
Qed.

Lemma converted_positive :
  0 < kc /\ 0 < KC /\ 0 < KO /\ 0 < s /\ 0 < h_o /\ 0 < h_c
  /\ 0 < RuBisCOParams.K_C q /\ 0 < RuBisCOParams.K_O q
  /\ 0 < RuBisCOParams.kcat_O q.
Proof.
  pose proof (scaled_positive _ kcat_C_pos) as Q1.
  pose proof (scaled_positive _ K_C_pos) as Q2.
  pose proof (scaled_positive _ K_O_pos) as Q3.
  pose proof (scaled_positive _ S_pos) as Q4.
  assert (QO : 0 < h_o) by (apply solubility_positive; cbn; lra).
  assert (QC : 0 < h_c) by (apply solubility_positive; cbn; lra).
  fold kc in Q1. fold KC in Q2. fold KO in Q3. fold s in Q4.
  repeat split; try assumption; unfold q;
    cbn [RuBisCOParams.K_C RuBisCOParams.K_O RuBisCOParams.kcat_O].
  - pose proof (Rmult_lt_0_compat _ _ Q2 QC).
    apply Rmult_lt_0_compat; [apply Rmult_lt_0_compat |]; lra.
  - pose proof (Rmult_lt_0_compat _ _ Q3 QO).
    apply Rmult_lt_0_compat; [apply Rmult_lt_0_compat |]; lra.
  - apply Rdiv_lt_0_compat; now apply Rmult_lt_0_compat.
Qed.

Lemma converted_is_p :
  ArrheniusRubisco.concrete_temp m (Some t) = Some p.
Proof.
  destruct (gas_constants_defined t t_nonzero) as (HO & HC & _ & _).
  apply concrete_temp_from_values; try assumption;
    now apply value_truthy.
Qed.

Lemma converted_kcat_O_q :
  Float64.real (RuBisCOParamsNp.kcat_O p) = Some (RuBisCOParams.kcat_O q).
Proof.
  destruct converted_positive as (Q1 & Q2 & Q3 & Q4 & QO & QC & _).
  unfold p. rewrite converted_kcat_O by lra. reflexivity.
Qed.

Lemma converted_rates (co2 o2 : R) :
  0 < co2 -> 0 < o2 ->
  exists (vc vo : R) (x y z : Float64.t),
    ArrheniusParam.value (ArrheniusRubisco.kcat_C m) (Some t) = Some kc
    /\ ArrheniusRubisco.concrete_temp m (Some t) = Some p
    /\ RuBisCOParamsNp.vs p (Float64.Fin co2) (Float64.Fin o2) = (x, y)
    /\ RuBisCOParamsNp.net_vc p (Float64.Fin co2) (Float64.Fin o2) = z
    /\ Float64.real x = Some vc /\ Float64.real y = Some vo
    /\ 0 < vc < kc /\ 0 < vo
    /\ Float64.real z = Some (vc - vo / 2).
Proof.
  intros Hc Ho.
  destruct converted_positive as (Q1 & Q2 & Q3 & Q4 & QO & QC & PKC & PKO & PkO).
  destruct (rates_within_turnover q co2 o2 PKC PKO Hc Ho Q1 PkO)
    as (vc & vo & Ev & Bc & [Bo _] & _).
  destruct (vs_agrees p q (eq_refl _) (eq_refl _) (eq_refl _)
              converted_kcat_O_q co2 o2 vc vo Ev) as [Ex Ey].
  pose proof (net_vc_agrees p q (eq_refl _) (eq_refl _) (eq_refl _)
                converted_kcat_O_q co2 o2 vc vo Ev) as Ez.
  exists vc, vo.
  exists (fst (RuBisCOParamsNp.vs p (Float64.Fin co2) (Float64.Fin o2))),
         (snd (RuBisCOParamsNp.vs p (Float64.Fin co2) (Float64.Fin o2))),
         (RuBisCOParamsNp.net_vc p (Float64.Fin co2) (Float64.Fin o2)).
  split; [now apply value_truthy |]. split; [exact converted_is_p |].
  split; [now destruct (RuBisCOParamsNp.vs p _ _) |].
  split; [reflexivity |].
  split; [exact Ex | split; [exact Ey | split; [exact Bc | split; [exact Bo | exact Ez]]]].
Qed.

End ConvertedRates.

(** X17: in exact arithmetic, a temperature-dependent model with nonzero
    reference temperatures and positive reference values does not raise at
    positive concentrations, whatever the temperature argument: [vs]
    returns two finite positive rates, the carboxylation rate below the
    [kcat_C] value at the resolved temperature, and [net_vc] returns their
    [vc - vo/2]. *)
Theorem temperature_dependent_rates_defined (m : ArrheniusRubisco.t)
    (co2 o2 : R) (temp : option R) :
  ArrheniusRubisco.ref_temp m <> 0 ->
  ArrheniusParam.ref_temp (ArrheniusRubisco.kcat_C m) <> 0 ->
  ArrheniusParam.ref_temp (ArrheniusRubisco.K_C m) <> 0 ->
  ArrheniusParam.ref_temp (ArrheniusRubisco.K_O m) <> 0 ->
  ArrheniusParam.ref_temp (ArrheniusRubisco.S m) <> 0 ->
  0 < ArrheniusParam.ref_value (ArrheniusRubisco.kcat_C m) ->
  0 < ArrheniusParam.ref_value (ArrheniusRubisco.K_C m) ->
  0 < ArrheniusParam.ref_value (ArrheniusRubisco.K_O m) ->
  0 < ArrheniusParam.ref_value (ArrheniusRubisco.S m) ->
  0 < co2 -> 0 < o2 ->
  exists (kc vc vo : R) (x y z : Float64.t),
    ArrheniusParam.value (ArrheniusRubisco.kcat_C m)
      (Some (py_or temp (ArrheniusRubisco.ref_temp m))) = Some kc
    /\ ArrheniusRubisco.vs m co2 o2 temp = Some (x, y)
    /\ Float64.real x = Some vc /\ Float64.real y = Some vo
    /\ 0 < vc < kc /\ 0 < vo
    /\ ArrheniusRubisco.net_vc m co2 o2 temp = Some z
    /\ Float64.real z = Some (vc - vo / 2).
Proof.
  intros N0 T1 T2 T3 T4 P1 P2 P3 P4 Hc Ho.
  set (t := py_or temp (ArrheniusRubisco.ref_temp m)).
  assert (Nt : t <> 0).
  { subst t. unfold py_or. destruct temp as [x |]; [| exact N0].
    destruct (Req_dec_T x 0); assumption. }
  destruct (converted_rates m t Nt T1 T2 T3 T4 P1 P2 P3 P4 co2 o2 Hc Ho)
    as (vc & vo & x & y & z & V & E & Ev & En & Rx & Ry & Bc & Bo & Rz).
  exists (scaledValue_formula (ArrheniusRubisco.kcat_C m) t), vc, vo, x, y, z.
  unfold ArrheniusRubisco.vs, ArrheniusRubisco.net_vc. fold t.
  rewrite E. cbn [bind]. rewrite Ev, En.
  repeat split; try assumption; apply Bc.
Qed.

Lemma temperature_dependent_rates_defined_witness :
  exists (kc vc vo : R) (x y z : Float64.t),
    ArrheniusParam.value (ArrheniusRubisco.kcat_C ATHALIANA_T) (Some 298.15) = Some kc
    /\ ArrheniusRubisco.vs ATHALIANA_T 10 250 None = Some (x, y)
    /\ Float64.real x = Some vc /\ Float64.real y = Some vo
    /\ 0 < vc < kc /\ 0 < vo
    /\ ArrheniusRubisco.net_vc ATHALIANA_T 10 250 None = Some z
    /\ Float64.real z = Some (vc - vo / 2).
Proof.
  assert (E : py_or (Some _REF_T) 298.15 = 298.15)
    by (unfold _REF_T; apply py_or_truthy; lra).
  assert (N : ArrheniusRubisco.ref_temp ATHALIANA_T <> 0).
  { change (py_or (Some _REF_T) 298.15 <> 0). rewrite E. lra. }
  destruct (temperature_dependent_rates_defined ATHALIANA_T 10 250 None N)
    as (kc & vc & vo & x & y & z & V & H); try (cbn; unfold _REF_T; lra).
  exists kc, vc, vo, x, y, z. split; [| exact H].
  change (ArrheniusParam.value (ArrheniusRubisco.kcat_C ATHALIANA_T)
            (Some (py_or (Some _REF_T) 298.15)) = Some kc) in V.
  rewrite E in V. exact V.
Defined.

(** ** A zero concentration *)

Lemma is_zero_Fin_zero : Float64.is_zero (Float64.Fin 0) = true.
Proof.
  cbn. destruct (Req_dec_T 0 0) as [_ | N]; [reflexivity | now elim N].
Qed.

Lemma is_zero_Fin_pos (a : R) : 0 < a -> Float64.is_zero (Float64.Fin a) = false.
Proof.
  intros Pa. cbn. destruct (Req_dec_T a 0); [lra | reflexivity].
Qed.

Lemma negative_Fin_nonneg (a : R) :
  0 <= a -> Float64.negative (Float64.Fin a) = false.
Proof.
  intros Pa. cbn. destruct (Rlt_dec a 0); [lra | reflexivity].
Qed.

Lemma mul_Fin_pos (a b : R) :
  0 < a -> 0 < b ->
  Float64.mul (Float64.Fin a) (Float64.Fin b) = Float64.Fin (a * b).
Proof.
  intros Pa Pb. unfold Float64.mul.
  now rewrite (is_zero_Fin_pos a Pa), (is_zero_Fin_pos b Pb).
Qed.

Lemma mul_Fin_pos_zero (a : R) :
  0 < a -> Float64.mul (Float64.Fin a) (Float64.Fin 0) = Float64.Fin 0.
Proof.
  intros Pa. unfold Float64.mul.
  rewrite (is_zero_Fin_pos a Pa), is_zero_Fin_zero.
  rewrite !negative_Fin_nonneg by lra. reflexivity.
Qed.

Lemma div_Fin_pos_by_zero (a : R) :
  0 < a ->
  Float64.div (Float64.Fin a) (Float64.Fin 0) = Float64.Inf false.
Proof.
  intros Pa. unfold Float64.div.
  rewrite (is_zero_Fin_pos a Pa), is_zero_Fin_zero.
  rewrite !negative_Fin_nonneg by lra. reflexivity.
Qed.

Lemma div_Fin_pos_by_infinity (a : R) :
  0 < a ->
  Float64.div (Float64.Fin a) (Float64.Inf false) = Float64.Fin 0.
Proof.
  intros Pa. unfold Float64.div.
  rewrite negative_Fin_nonneg by lra. reflexivity.
Qed.

(** X19: a zero CO2 concentration does not raise in a temperature-dependent
    model: the two quotients by zero are infinite, so (in exact arithmetic,
    for nonzero reference temperatures, positive reference values and
    [o2 > 0]) [vs] returns [vc = 0] and [vo = kcat_O / (1 + K_O / o2)] of
    the converted model, and [net_vc] returns [- vo / 2]. *)
Theorem rates_at_zero_co2 (m : ArrheniusRubisco.t) (t o2 : R) :
  t <> 0 ->
  ArrheniusParam.ref_temp (ArrheniusRubisco.kcat_C m) <> 0 ->
  ArrheniusParam.ref_temp (ArrheniusRubisco.K_C m) <> 0 ->
  ArrheniusParam.ref_temp (ArrheniusRubisco.K_O m) <> 0 ->
  ArrheniusParam.ref_temp (ArrheniusRubisco.S m) <> 0 ->
  0 < ArrheniusParam.ref_value (ArrheniusRubisco.kcat_C m) ->
  0 < ArrheniusParam.ref_value (ArrheniusRubisco.K_C m) ->
  0 < ArrheniusParam.ref_value (ArrheniusRubisco.K_O m) ->
  0 < ArrheniusParam.ref_value (ArrheniusRubisco.S m) ->
  0 < o2 ->
  exists (p : RuBisCOParamsNp.t) (ko KO : R) (y z : Float64.t),
    ArrheniusRubisco.concrete_temp m (Some t) = Some p
    /\ Float64.real (RuBisCOParamsNp.kcat_O p) = Some ko
    /\ RuBisCOParamsNp.K_O p = Float64.Fin KO
    /\ ArrheniusRubisco.vs m 0 o2 (Some t) = Some (Float64.Fin 0, y)
    /\ Float64.real y = Some (ko / (1 + KO / o2))
    /\ ArrheniusRubisco.net_vc m 0 o2 (Some t) = Some z
    /\ Float64.real z = Some (- (ko / (1 + KO / o2)) / 2).
Proof.
  intros Nt T1 T2 T3 T4 P1 P2 P3 P4 Ho.
  pose proof (converted_is_p m t Nt T1 T2 T3 T4) as E.
  pose proof (converted_kcat_O_q m t P1 P2 P3 P4) as K.
  destruct (converted_positive m t P1 P2 P3 P4)
    as (Q1 & Q2 & Q3 & Q4 & QO & QC & PKC & PKO & PkO).
  cbn [RuBisCOParams.K_C RuBisCOParams.K_O RuBisCOParams.kcat_O] in PKC, PKO, PkO, K.
  set (kc := scaledValue_formula (ArrheniusRubisco.kcat_C m) t) in *.
  set (KCu := 1e-3 * (scaledValue_formula (ArrheniusRubisco.K_C m) t
                      * solubilityCoefficient_formula CO2_SOL t) * 1e6) in *.
  set (KOu := 1e-3 * (scaledValue_formula (ArrheniusRubisco.K_O m) t
                      * solubilityCoefficient_formula O2_SOL t) * 1e6) in *.
  set (ko := kc * scaledValue_formula (ArrheniusRubisco.K_O m) t
             / (scaledValue_formula (ArrheniusRubisco.K_C m) t
                * scaledValue_formula (ArrheniusRubisco.S m) t)) in *.
  match type of E with _ = Some ?x => set (p := x) in * end.
  assert (Ey : Float64.real
                 (Float64.div (RuBisCOParamsNp.kcat_O p)
                    (Float64.add
                       (Float64.add (Float64.Fin 1.0)
                          (Float64.div (Float64.Fin KOu) (Float64.Fin o2)))
                       (Float64.div
                          (Float64.mul (Float64.Fin KOu) (Float64.Fin 0))
                          (Float64.mul (Float64.Fin KCu) (Float64.Fin o2)))))
               = Some (ko / (1 + KOu / o2))).
  { replace (ko / (1 + KOu / o2))
      with (ko / (1.0 + KOu / o2 + (KOu * 0) / (KCu * o2)))
      by (f_equal; rewrite one_point_zero; unfold Rdiv; ring).
    apply real_div; [exact K | |].
    - apply real_add; [apply real_add; [reflexivity |] |].
      + apply real_div; [reflexivity | reflexivity | lra].
      + apply real_div; [now apply real_mul | now apply real_mul |].
        apply Rgt_not_eq. now apply Rmult_lt_0_compat.
    - assert (0 < KOu / o2) by (now apply Rdiv_lt_0_compat).
      replace (KOu * 0 / (KCu * o2)) with 0 by (unfold Rdiv; ring). lra. }
  assert (Ev : RuBisCOParamsNp.vs p (Float64.Fin 0) (Float64.Fin o2) =
               (Float64.Fin 0,
                Float64.div (RuBisCOParamsNp.kcat_O p)
                  (Float64.add
                     (Float64.add (Float64.Fin 1.0)
                        (Float64.div (Float64.Fin KOu) (Float64.Fin o2)))
                     (Float64.div
                        (Float64.mul (Float64.Fin KOu) (Float64.Fin 0))
                        (Float64.mul (Float64.Fin KCu) (Float64.Fin o2)))))).
  { unfold RuBisCOParamsNp.vs. f_equal.
    change (RuBisCOParamsNp.kcat_C p) with (Float64.Fin kc).
    change (RuBisCOParamsNp.K_C p) with (Float64.Fin KCu).
    change (RuBisCOParamsNp.K_O p) with (Float64.Fin KOu).
    rewrite (div_Fin_pos_by_zero KCu PKC).
    rewrite (mul_Fin_pos KCu o2 PKC Ho), (mul_Fin_pos_zero KOu PKO).
    rewrite (div_Fin_pos_by_zero (KCu * o2))
      by (now apply Rmult_lt_0_compat).
    cbn [Float64.add Bool.eqb].
    now apply div_Fin_pos_by_infinity. }
  exists p, ko, KOu.
  eexists. eexists.
  split; [exact E |]. split; [exact K |]. split; [reflexivity |].
  unfold ArrheniusRubisco.vs, ArrheniusRubisco.net_vc.
  rewrite (py_or_truthy t _ Nt), E. cbn [bind].
  unfold RuBisCOParamsNp.net_vc. rewrite Ev.
  split; [reflexivity |]. split; [exact Ey |]. split; [reflexivity |].
  replace (- (ko / (1 + KOu / o2)) / 2) with (0 - ko / (1 + KOu / o2) / 2)
    by (unfold Rdiv; ring).
  apply real_sub; [reflexivity |].
  apply real_div; [exact Ey | reflexivity | lra].
Qed.

Lemma rates_at_zero_co2_witness :
  exists (p : RuBisCOParamsNp.t) (ko KO : R) (y z : Float64.t),
    ArrheniusRubisco.concrete_temp ATHALIANA_T (Some 298.15) = Some p
    /\ Float64.real (RuBisCOParamsNp.kcat_O p) = Some ko
    /\ RuBisCOParamsNp.K_O p = Float64.Fin KO
    /\ ArrheniusRubisco.vs ATHALIANA_T 0 200 (Some 298.15) = Some (Float64.Fin 0, y)
    /\ Float64.real y = Some (ko / (1 + KO / 200))
    /\ ArrheniusRubisco.net_vc ATHALIANA_T 0 200 (Some 298.15) = Some z
    /\ Float64.real z = Some (- (ko / (1 + KO / 200)) / 2).
Proof.
  apply (rates_at_zero_co2 ATHALIANA_T 298.15 200); cbn; unfold _REF_T; lra.
Defined.
